(** * Telegram relay bot: admin-availability routing and reply correlation

    A shallow embedding of the two scripts of the repository,
    [src/main.py] (module [Main]) and [src/unnamed/part_000]
    (module [Part000]), and the properties of their handlers.

    Conventions of the embedding:
    - a Python [str] is the list of its code points ([pystr]);
    - [time.time()] floats are rationals ([Q]);
    - [context.bot_data] and the per-user [context.user_data] are records
      whose optional fields are the keys of the dictionaries, [None]
      standing for an absent key; the correlation dictionary and the
      per-user store are finite maps;
    - what the transport and the generative service do during one handler
      call is an explicit input ([env]); what the handler sends is the list
      of [action]s it returns. *)

From Stdlib Require Import ZArith NArith QArith String Ascii List Bool Lia Lqa.
From stdpp Require Import base option list gmap strings.

Local Open Scope Z_scope.

(** ** Python strings *)

Abbreviation pystr := (list N).

(** Code points of a UTF-8 byte sequence (source literals are UTF-8). *)
Fixpoint utf8_decode (bs : list N) : pystr :=
  match bs with
  | [] => []
  | b0 :: r0 =>
      if (b0 <? 128)%N then b0 :: utf8_decode r0
      else if (b0 <? 224)%N then
        match r0 with
        | b1 :: r1 => ((b0 mod 32) * 64 + b1 mod 64)%N :: utf8_decode r1
        | _ => []
        end
      else if (b0 <? 240)%N then
        match r0 with
        | b1 :: b2 :: r2 =>
            ((b0 mod 16) * 4096 + (b1 mod 64) * 64 + b2 mod 64)%N
              :: utf8_decode r2
        | _ => []
        end
      else
        match r0 with
        | b1 :: b2 :: b3 :: r3 =>
            ((b0 mod 8) * 262144 + (b1 mod 64) * 4096
             + (b2 mod 64) * 64 + b3 mod 64)%N :: utf8_decode r3
        | _ => []
        end
  end.

(** A string literal of the source as a Python string. *)
Definition lit (s : string) : pystr :=
  utf8_decode (map N_of_ascii (list_ascii_of_string s)).

(** [re.search(r'[lo-hi...]', text)] for a character class given by its
    ranges: some code point of [text] lies in one of them. *)
Definition in_range (lo hi c : N) : bool := ((lo <=? c) && (c <=? hi))%N.

Definition re_search_class (ranges : list (N * N)) (text : pystr) : bool :=
  existsb (fun c => existsb (fun r => in_range (fst r) (snd r) c) ranges) text.

(** [str.isspace] on one code point: the white space of [str.strip()]. *)
Definition py_isspace (c : N) : bool :=
  (in_range 9 13 c || in_range 28 32 c || (c =? 133) || (c =? 160)
   || (c =? 5760) || in_range 8192 8202 c || (c =? 8232) || (c =? 8233)
   || (c =? 8239) || (c =? 8287) || (c =? 12288))%N.

Fixpoint lstrip (s : pystr) : pystr :=
  match s with
  | c :: r => if py_isspace c then lstrip r else s
  | [] => []
  end.

(** [s.strip()] *)
Definition strip (s : pystr) : pystr := rev (lstrip (rev (lstrip s))).

Fixpoint starts_with (p s : pystr) : bool :=
  match p, s with
  | [], _ => true
  | a :: p', b :: s' => (a =? b)%N && starts_with p' s'
  | _ :: _, [] => false
  end.

(** [p in s] for strings: [p] occurs in [s] as a substring. *)
Fixpoint contains (p s : pystr) : bool :=
  starts_with p s ||
  match s with
  | [] => false
  | _ :: s' => contains p s'
  end.

(** [x or default] on a string that may be [None]: the empty string is
    falsy. *)
Definition str_or (x : option pystr) (d : pystr) : pystr :=
  match x with
  | Some (c :: r) => c :: r
  | _ => d
  end.

(** [str.lower] restricted to ASCII letters; it agrees with Python's
    [str.lower] on ASCII text and is the instance used in examples. *)
Definition ascii_lower (s : pystr) : pystr :=
  map (fun c => if in_range 65 90 c then (c + 32)%N else c) s.

(** [now - last < bound] on time stamps. *)
Definition Qltb (x y : Q) : bool :=
  match (x ?= y)%Q with
  | Lt => true
  | _ => false
  end.

(** ** The transport and the generative service *)

(** A raised exception: whether its class derives from [Exception] (a
    [KeyboardInterrupt] or a cancellation does not) and [str(e)]. *)
Record exn := { exn_is_Exception : bool; exn_str : pystr }.

(** The object returned by [generate_content]: [resp.text] ([None] when
    the attribute is missing or is [None]), [str(c.content)] for each of
    [resp.candidates] (empty when the attribute is missing, [None] or
    empty), and [str(resp)]. *)
Record response := {
  resp_text : option pystr;
  resp_candidates : list pystr;
  resp_str : pystr
}.

Inductive outcome :=
  | Returns (resp : response)
  | Raises (e : exn).

(** The two prompts are fixed templates; a prompt is the values put in
    the holes of its template: [intelligent_prompt] of
    [main.py:handle_message] has [lang] and [text], the prompt of
    [part_000:smart_welcome] has [name] and [lang]. *)
Inductive prompt :=
  | IntelligentPrompt (lang : string) (text : pystr)
  | WelcomePrompt (name : pystr) (lang : string).

(** The message of an update: a text, with the bot command the transport
    found at its start, if any, or a photo. *)
Inductive body :=
  | Text (t : pystr) (command : option string)
  | Photo.

Record update := {
  effective_user_id : Z;
  first_name : option pystr;
  effective_chat_id : Z;
  message_id : Z;
  message : body;
  reply_to_message : option Z   (* message_id of the message replied to *)
}.

Definition message_text (u : update) : pystr :=
  match message u with
  | Text t _ => t
  | Photo => []
  end.

(** What the outside world does during one handler call: the clock, the
    result of [forward_message] ([None]: it raised, and then
    [forward_error] is what it raised), whether the "typing" filler could
    be sent, the generative service, the random source, and what
    [send_message] raised ([None]: it returned). *)
Record env := {
  now : Q;
  forward_result : option Z;
  typing_ok : bool;
  generate : prompt -> outcome;
  rnd : nat;
  forward_error : exn;
  send_result : option exn
}.

(** The calls the bot made to the transport, in order. [reply_text]
    answers in the chat of the update. A [forward_message] or
    [send_message] that raised is not listed. A [reply_text] outside
    [type_animation] is the last call of its handler and is listed as
    made; what the transport does with it is not modelled. *)
Inductive action :=
  | reply_text (chat : Z) (text : pystr)
  | send_message (chat_id : Z) (text : pystr)
  | forward_message (chat_id from_chat_id msg_id : Z).

(** ** The stores *)

Record UserData := {
  last_time : option Q;
  busy_shown : option bool
}.

Record BotData := {
  admin_available : option bool;
  admin_status_changed : option string;   (* "available", "away" or None *)
  forwarded_map : option (gmap Z Z)
}.

Record state := {
  bot_data : BotData;
  user_data : gmap Z UserData
}.

(** The outcome of one handler call: the stores, the messages sent, and
    the exception that left the handler, if any. *)
Record result := {
  st : state;
  out : list action;
  raised : option exn
}.

Definition no_user_data : UserData :=
  {| last_time := None; busy_shown := None |}.

Definition initial_state : state :=
  {| bot_data := {| admin_available := None; admin_status_changed := None;
                    forwarded_map := None |};
     user_data := ∅ |}.

(** [context.user_data] of the user of the update. *)
Definition context_user_data (s : state) (uid : Z) : UserData :=
  default no_user_data (user_data s !! uid).

Definition set_user_data (s : state) (uid : Z) (ud : UserData) : state :=
  {| bot_data := bot_data s; user_data := <[uid := ud]> (user_data s) |}.

Definition set_bot_data (s : state) (bd : BotData) : state :=
  {| bot_data := bd; user_data := user_data s |}.

Definition set_last_time (ud : UserData) (t : Q) : UserData :=
  {| last_time := Some t; busy_shown := busy_shown ud |}.

Definition set_busy_shown (ud : UserData) (b : bool) : UserData :=
  {| last_time := last_time ud; busy_shown := Some b |}.

Definition set_admin (bd : BotData) (avail : bool) (changed : string)
  : BotData :=
  {| admin_available := Some avail;
     admin_status_changed := Some changed;
     forwarded_map := forwarded_map bd |}.

Definition clear_status_changed (bd : BotData) : BotData :=
  {| admin_available := admin_available bd;
     admin_status_changed := None;
     forwarded_map := forwarded_map bd |}.

(** [bot_data.setdefault("forwarded_map", {})[fwd_id] = chat] *)
Definition record_forward (bd : BotData) (fwd_id chat : Z) : BotData :=
  {| admin_available := admin_available bd;
     admin_status_changed := admin_status_changed bd;
     forwarded_map := Some (<[fwd_id := chat]> (default ∅ (forwarded_map bd))) |}.

(** [bot_data.get("forwarded_map", {}).get(forwarded_id)] *)
Definition resolve (bd : BotData) (forwarded_id : Z) : option Z :=
  default ∅ (forwarded_map bd) !! forwarded_id.

(** [not user_chat]: [None] and [0] are falsy. *)
Definition falsy (user_chat : option Z) : bool :=
  match user_chat with
  | None => true
  | Some c => c =? 0
  end.

(** [random.choice(l)] with the random source made explicit. *)
Definition random_choice (r : nat) (l : list pystr) : pystr :=
  nth (r mod length l) l [].

(** A handler that returns normally. *)
Definition done_with (s : state) (acts : list action) : result :=
  {| st := s; out := acts; raised := None |}.

(** ** [src/main.py] *)

Module Main.
Section WithConfig.

(** The configured admin identity and Python's [str.lower]. *)
Variable ADMIN_ID : Z.
Variable lower : pystr -> pystr.

Definition detect_language (text : pystr) : string :=
  if re_search_class [(2304, 2431)%N] text then "hindi"
  else if re_search_class [(2432, 2559)%N] text then "bengali"
  else if re_search_class [(65, 90)%N; (97, 122)%N] text then "english"
  else "english".

(** The filler is sent inside [try/except: pass]; the delay is not
    modelled. *)
Definition type_animation (u : update) (e : env) : list action :=
  if typing_ok e
  then [reply_text (effective_chat_id u) (lit "💬 Bot is typing…")]
  else [].

Definition FALLBACK_RESPONSES : list pystr := [lit "Message sent ✅."].

(** [call()] catches [Exception] only: any other exception leaves
    [ask_gemini]. *)
Definition ask_gemini (e : env) (p : prompt) : pystr + exn :=
  match generate e p with
  | Returns resp =>
      match resp_text resp with
      | Some (c :: t) => inl (strip (c :: t))
      | _ =>
          match resp_candidates resp with
          | cand :: _ => inl (strip cand)
          | [] => inl (resp_str resp)
          end
      end
  | Raises ex =>
      if exn_is_Exception ex
      then inl (random_choice (rnd e) FALLBACK_RESPONSES)
      else inr ex
  end.

Definition safe_ask_gemini (e : env) (p : prompt) : pystr + exn :=
  match ask_gemini e p with
  | inl reply => inl reply
  | inr ex =>
      if exn_is_Exception ex then
        if contains (lit "429") (exn_str ex)
           || contains (lit "rate") (lower (exn_str ex))
        then inl (random_choice (rnd e) FALLBACK_RESPONSES)
        else inl (lit "Message sent ✅")
      else inr ex
  end.

Definition user_spam (t : Q) (ud : UserData) : bool * UserData :=
  let last := default 0%Q (last_time ud) in
  if Qltb (t - last) (3 # 2) then (true, ud)
  else (false, set_last_time ud t).

Definition start_cmd (u : update) (e : env) (s : state) : result :=
  done_with s
    (type_animation u e
     ++ [reply_text (effective_chat_id u)
           (lit "👋 Welcome! Send hi to begin ✨")]).

Definition available_cmd (u : update) (s : state) : result :=
  if decide (effective_user_id u ≠ ADMIN_ID) then
    done_with s [reply_text (effective_chat_id u) (lit "❌ Not allowed.")]
  else
    done_with (set_bot_data s (set_admin (bot_data s) true "available"))
      [reply_text (effective_chat_id u) (lit "🟢 Admin is now available.")].

Definition away_cmd (u : update) (s : state) : result :=
  if decide (effective_user_id u ≠ ADMIN_ID) then
    done_with s [reply_text (effective_chat_id u) (lit "❌ Not allowed.")]
  else
    done_with (set_bot_data s (set_admin (bot_data s) false "away"))
      [reply_text (effective_chat_id u) (lit "🔴 Admin is now away.")].

(** [send_message] is awaited outside any [try]: what it raises leaves
    the handler before the acknowledgement. *)
Definition admin_reply_handler (u : update) (e : env) (s : state) : result :=
  if decide (effective_user_id u ≠ ADMIN_ID) then done_with s []
  else
    match reply_to_message u with
    | None => done_with s []
    | Some forwarded_id =>
        let user_chat := resolve (bot_data s) forwarded_id in
        if falsy user_chat then
          done_with s
            [reply_text (effective_chat_id u) (lit "❌ User not found.")]
        else
          match send_result e with
          | Some ex => {| st := s; out := []; raised := Some ex |}
          | None =>
              done_with s
                [send_message (default 0 user_chat)
                   (lit "💬 Admin: " ++ message_text u);
                 reply_text (effective_chat_id u) (lit "✅ Sent to user.")]
          end
    end.

Definition AVAILABLE_NOTICE : pystr :=
  lit "🟢 Admin is available. You can chat now.".

Definition AWAY_NOTICE : pystr :=
  lit "🔴 Admin is busy.
📨 Message sent.
⏳ Reply within 48 hours.".

(** Lines 187-198 of [handle_message]: the notice to send, if one is
    pending, and the store after the read. *)
Definition consume_pending_notice (bd : BotData) : option pystr * BotData :=
  let admin_status := admin_status_changed bd in
  if decide (admin_status = Some "available") then
    (Some AVAILABLE_NOTICE, clear_status_changed bd)
  else if decide (admin_status = Some "away") then
    (Some AWAY_NOTICE, clear_status_changed bd)
  else (None, bd).

(** Lines 174-182 of [handle_message]: the forward and its record; a
    failed forward is swallowed. *)
Definition silent_forward (u : update) (e : env) (bd : BotData)
  : BotData * list action :=
  match forward_result e with
  | Some fwd_id =>
      (record_forward bd fwd_id (effective_chat_id u),
       [forward_message ADMIN_ID (effective_chat_id u) (message_id u)])
  | None => (bd, [])
  end.

Definition handle_message (u : update) (e : env) (s : state) : result :=
  let uid := effective_user_id u in
  let '(blocked, ud) := user_spam (now e) (context_user_data s uid) in
  if blocked then done_with s []
  else
    let text := take 500 (message_text u) in
    let lang := detect_language text in
    let '(bd, fwd) := silent_forward u e (bot_data s) in
    let typing := type_animation u e in
    match consume_pending_notice bd with
    | (Some notice, bd') =>
        done_with {| bot_data := bd'; user_data := <[uid := ud]> (user_data s) |}
          (fwd ++ typing ++ [reply_text (effective_chat_id u) notice])
    | (None, bd') =>
        let first_time := negb (default false (busy_shown ud)) in
        let ud' := set_busy_shown ud true in
        let admin_available := default false (admin_available bd') in
        let s' := {| bot_data := bd'; user_data := <[uid := ud']> (user_data s) |} in
        match safe_ask_gemini e (IntelligentPrompt lang text) with
        | inl ai_reply =>
            done_with s'
              (fwd ++ typing ++ [reply_text (effective_chat_id u) ai_reply])
        | inr ex =>
            {| st := s'; out := fwd ++ typing; raised := Some ex |}
        end
    end.

(** The handlers of [main], tried in the order they were added; the
    first whose filter matches handles the update, alone. *)
Definition dispatch (u : update) (e : env) (s : state) : result :=
  match message u with
  | Text _ cmd =>
      if decide (cmd = Some "start") then start_cmd u e s
      else if decide (cmd = Some "available") then available_cmd u s
      else if decide (cmd = Some "away") then away_cmd u s
      else if decide (is_Some (reply_to_message u))
      then admin_reply_handler u e s
      else if decide (cmd = None) then handle_message u e s
      else done_with s []
  | Photo => done_with s []
  end.

End WithConfig.
End Main.

(** ** [src/unnamed/part_000] *)

Module Part000.
Section WithConfig.

Variable ADMIN_ID : Z.
Variable lower : pystr -> pystr.

Definition detect_language (text : pystr) : string :=
  if re_search_class [(2432, 2559)%N] text then "bengali"
  else "english".

Definition type_animation (u : update) (e : env) : list action :=
  if typing_ok e
  then [reply_text (effective_chat_id u) (lit "💬 Bot is typing…")]
  else [].

Definition FALLBACK_RESPONSES : list pystr := [lit "Message sent ✅"].

(** [call()] catches everything. *)
Definition ask_gemini (e : env) (p : prompt) : pystr + exn :=
  match generate e p with
  | Returns resp =>
      match resp_text resp with
      | Some (c :: t) => inl (strip (c :: t))
      | _ => inl (lit "Message sent ✅")
      end
  | Raises _ => inl (lit "Message sent ✅")
  end.

Definition safe_ask_gemini (e : env) (p : prompt) : pystr :=
  match ask_gemini e p with
  | inl reply => reply
  | inr _ => random_choice (rnd e) FALLBACK_RESPONSES
  end.

Definition user_spam (t : Q) (ud : UserData) : bool * UserData :=
  let last := default 0%Q (last_time ud) in
  if Qltb (t - last) (6 # 5) then (true, ud)
  else (false, set_last_time ud t).

Definition smart_welcome (e : env) (name : pystr) (lang : string) : pystr :=
  let reply := safe_ask_gemini e (WelcomePrompt name lang) in
  strip reply.

Definition start_cmd (u : update) (e : env) (s : state) : result :=
  let name := str_or (first_name u) (lit "Friend") in
  let lang := "english" in
  let welcome := smart_welcome e name lang in
  done_with s [reply_text (effective_chat_id u) welcome].

Definition available_cmd (u : update) (s : state) : result :=
  if decide (effective_user_id u ≠ ADMIN_ID) then
    done_with s [reply_text (effective_chat_id u) (lit "❌ Not allowed.")]
  else
    done_with (set_bot_data s (set_admin (bot_data s) true "available"))
      [reply_text (effective_chat_id u) (lit "🟢 Admin is now available.")].

Definition away_cmd (u : update) (s : state) : result :=
  if decide (effective_user_id u ≠ ADMIN_ID) then
    done_with s [reply_text (effective_chat_id u) (lit "❌ Not allowed.")]
  else
    done_with (set_bot_data s (set_admin (bot_data s) false "away"))
      [reply_text (effective_chat_id u) (lit "🔴 Admin is now away.")].

(** [send_message] is awaited outside any [try]: what it raises leaves
    the handler before the acknowledgement. *)
Definition admin_reply_handler (u : update) (e : env) (s : state) : result :=
  if decide (effective_user_id u ≠ ADMIN_ID) then done_with s []
  else
    match reply_to_message u with
    | None => done_with s []
    | Some forwarded_id =>
        let user_chat := resolve (bot_data s) forwarded_id in
        if falsy user_chat then
          done_with s
            [reply_text (effective_chat_id u) (lit "❌ User not found.")]
        else
          match send_result e with
          | Some ex => {| st := s; out := []; raised := Some ex |}
          | None =>
              done_with s
                [send_message (default 0 user_chat) (message_text u);
                 reply_text (effective_chat_id u) (lit "Message sent ✅")]
          end
    end.

(** Lines 218-226 of [handle_message]: the forward and its record; a
    failed forward is swallowed, whatever was raised (bare [except]). *)
Definition silent_forward (u : update) (e : env) (bd : BotData)
  : BotData * list action :=
  match forward_result e with
  | Some fwd_id =>
      (record_forward bd fwd_id (effective_chat_id u),
       [forward_message ADMIN_ID (effective_chat_id u) (message_id u)])
  | None => (bd, [])
  end.

(** The forward is inside [try ... except Exception]: a failure derived
    from [Exception] is logged and the photo is acknowledged all the same;
    anything else leaves the handler before the acknowledgement. *)
Definition photo_handler (u : update) (e : env) (s : state) : result :=
  match forward_result e with
  | Some fwd_id =>
      done_with
        (set_bot_data s
           (record_forward (bot_data s) fwd_id (effective_chat_id u)))
        [forward_message ADMIN_ID (effective_chat_id u) (message_id u);
         reply_text (effective_chat_id u) (lit "Message sent ✅")]
  | None =>
      if exn_is_Exception (forward_error e) then
        done_with s [reply_text (effective_chat_id u) (lit "Message sent ✅")]
      else {| st := s; out := []; raised := Some (forward_error e) |}
  end.

Definition greetings : list pystr :=
  [lit "hi"; lit "hello"; lit "hey"; lit "hlo"; lit "hola"; lit "namaste";
   lit "salam"; lit "assalamualaikum"].

Definition AVAILABLE_NOTICE : pystr := lit "🟢 Admin available.".

Definition BUSY_NOTICE : pystr :=
  lit "🔴 Admin busy.
Message sent ✅
⏳ Reply within 48 hours.".

(** Lines 231-239 of [handle_message]: the notice to send, if one is
    pending, and the store after the read. *)
Definition consume_pending_notice (bd : BotData) : option pystr * BotData :=
  let admin_status := admin_status_changed bd in
  if decide (admin_status = Some "available") then
    (Some AVAILABLE_NOTICE, clear_status_changed bd)
  else if decide (admin_status = Some "away") then
    (Some BUSY_NOTICE, clear_status_changed bd)
  else (None, bd).

Definition handle_message (u : update) (e : env) (s : state) : result :=
  let uid := effective_user_id u in
  let chat := effective_chat_id u in
  let '(blocked, ud) := user_spam (now e) (context_user_data s uid) in
  if blocked then done_with s []
  else
    let text := take 500 (message_text u) in
    let lang := detect_language text in
    let name := str_or (first_name u) (lit "Friend") in
    if decide (lower text ∈ greetings) then
      let greeting := smart_welcome e name lang in
      done_with (set_user_data s uid ud) [reply_text chat greeting]
    else
      let '(bd, fwd) := silent_forward u e (bot_data s) in
      let typing := type_animation u e in
      match consume_pending_notice bd with
      | (Some notice, bd') =>
          done_with {| bot_data := bd'; user_data := <[uid := ud]> (user_data s) |}
            (fwd ++ typing ++ [reply_text chat notice])
      | (None, bd') =>
          let first_time := negb (default false (busy_shown ud)) in
          let ud' := set_busy_shown ud true in
          let admin_available := default false (admin_available bd') in
          let s' := {| bot_data := bd'; user_data := <[uid := ud']> (user_data s) |} in
          if admin_available then
            done_with s' (fwd ++ typing ++ [reply_text chat (lit "Message sent ✅")])
          else if first_time then
            done_with s' (fwd ++ typing ++ [reply_text chat BUSY_NOTICE])
          else
            done_with s' (fwd ++ typing ++ [reply_text chat (lit "Message sent ✅")])
      end.

(** The handlers of [main], tried in the order they were added; the
    first whose filter matches handles the update, alone. *)
Definition dispatch (u : update) (e : env) (s : state) : result :=
  match message u with
  | Text _ cmd =>
      if decide (cmd = Some "start") then start_cmd u e s
      else if decide (cmd = Some "available") then available_cmd u s
      else if decide (cmd = Some "away") then away_cmd u s
      else if decide (is_Some (reply_to_message u))
      then admin_reply_handler u e s
      else if decide (cmd = None) then handle_message u e s
      else done_with s []
  | Photo => photo_handler u e s
  end.

End WithConfig.
End Part000.

(** ** Runs *)

(** The state after a sequence of updates, each with what the outside
    world did while it was handled. A handler that raised keeps the
    changes it had made. *)
Definition run (step : update -> env -> state -> result)
  (s : state) (evs : list (update * env)) : state :=
  fold_left (fun s ev => st (step (fst ev) (snd ev) s)) evs s.

(** The states a run goes through, the first one included. *)
Fixpoint states (step : update -> env -> state -> result)
  (s : state) (evs : list (update * env)) : list state :=
  match evs with
  | [] => [s]
  | ev :: evs' => s :: states step (st (step (fst ev) (snd ev) s)) evs'
  end.

(** [busy_shown] of a user, as [handle_message] reads it. *)
Definition has_busy_shown (s : state) (uid : Z) : bool :=
  default false (busy_shown (context_user_data s uid)).

(** How often a user's [busy_shown] goes from false to true along a
    list of successive states. *)
Fixpoint latch_count (uid : Z) (l : list state) : nat :=
  match l with
  | s :: ((s' :: _) as l') =>
      ((if negb (has_busy_shown s uid) && has_busy_shown s' uid then 1 else 0)
       + latch_count uid l')%nat
  | _ => 0%nat
  end.

(** The results of [n] successive reads of the pending notice, and the
    store after them. *)
Fixpoint consume_n (consume : BotData -> option pystr * BotData)
  (n : nat) (bd : BotData) : list (option pystr) * BotData :=
  match n with
  | O => ([], bd)
  | S n' =>
      let '(r, bd') := consume bd in
      let '(rs, bd'') := consume_n consume n' bd' in
      (r :: rs, bd'')
  end.


(** The Unicode blocks of the language sniffer. *)
Definition devanagari (c : N) : Prop := (2304 <= c <= 2431)%N.
Definition bengali_block (c : N) : Prop := (2432 <= c <= 2559)%N.

(** What one update does to the per-user store: nothing, or it replaces
    the entry of the sender, whose [busy_shown] is kept or set. *)
Definition touches_sender_only (step : update -> env -> state -> result)
  : Prop :=
  forall u e s,
    user_data (st (step u e s)) = user_data s
    \/ exists ud',
         user_data (st (step u e s))
         = <[effective_user_id u := ud']> (user_data s)
         /\ (busy_shown ud'
             = busy_shown (context_user_data s (effective_user_id u))
             \/ busy_shown ud' = Some true).

(** The same handler call with another answer of [forward_message]. *)
Definition with_forward_result (e : env) (r : option Z) : env :=
  {| now := now e; forward_result := r; typing_ok := typing_ok e;
     generate := generate e; rnd := rnd e;
     forward_error := forward_error e; send_result := send_result e |}.

(** The same update carrying another plain text. *)
Definition with_text (u : update) (t : pystr) : update :=
  {| effective_user_id := effective_user_id u; first_name := first_name u;
     effective_chat_id := effective_chat_id u; message_id := message_id u;
     message := Text t None; reply_to_message := reply_to_message u |}.

(** An [/available] or [/away] of the admin. *)
Definition is_setter (ADMIN_ID : Z) (u : update) : Prop :=
  effective_user_id u = ADMIN_ID
  /\ exists t, message u = Text t (Some "available")
               \/ message u = Text t (Some "away").

(** A text that is no command and no reply: what [handle_message] gets. *)
Definition is_plain_text (u : update) : Prop :=
  reply_to_message u = None /\ exists t, message u = Text t None.

(** What [silent_forward] sends for an update. *)
Definition forward_of (ADMIN_ID : Z) (u : update) (e : env) : list action :=
  match forward_result e with
  | Some _ => [forward_message ADMIN_ID (effective_chat_id u) (message_id u)]
  | None => []
  end.

(** ** Sample inputs *)

Definition failing_service : prompt -> outcome :=
  fun _ => Raises {| exn_is_Exception := true; exn_str := lit "429 quota" |}.

Definition sample_env (t : Q) : env :=
  {| now := t; forward_result := Some 900; typing_ok := true;
     generate := failing_service; rnd := 0;
     forward_error := {| exn_is_Exception := true; exn_str := lit "Forbidden" |};
     send_result := None |}.

Definition text_update (uid : Z) (t : pystr) : update :=
  {| effective_user_id := uid; first_name := None; effective_chat_id := uid;
     message_id := 40; message := Text t None; reply_to_message := None |}.

Definition command_update (uid : Z) (c : string) : update :=
  {| effective_user_id := uid; first_name := None; effective_chat_id := uid;
     message_id := 41; message := Text (lit ("/" ++ c)) (Some c);
     reply_to_message := None |}.

Definition reply_update (uid : Z) (t : pystr) (c : option string)
  (replied : Z) : update :=
  {| effective_user_id := uid; first_name := None; effective_chat_id := uid;
     message_id := 42; message := Text t c; reply_to_message := Some replied |}.

(** A service that answers with no text and no candidate (a blocked
    prompt); [str(resp)] is abbreviated. *)
Definition empty_service : prompt -> outcome :=
  fun _ => Returns {| resp_text := None; resp_candidates := [];
                      resp_str := lit "candidates=None text=None" |}.

Definition empty_env (t : Q) : env :=
  {| now := t; forward_result := Some 900; typing_ok := true;
     generate := empty_service; rnd := 0;
     forward_error := {| exn_is_Exception := true; exn_str := lit "Forbidden" |};
     send_result := None |}.

(** * Properties *)

Example lit_fallback :
  lit "Message sent ✅" =
  [77; 101; 115; 115; 97; 103; 101; 32; 115; 101; 110; 116; 32; 9989]%N.
Proof. reflexivity. Qed.

(** ** The pending status notice *)

Lemma main_consume_none bd :
  admin_status_changed bd = None ->
  Main.consume_pending_notice bd = (None, bd).
Proof.
  intros H. unfold Main.consume_pending_notice. rewrite H.
  repeat case_decide; congruence.
Qed.

Lemma part_consume_none bd :
  admin_status_changed bd = None ->
  Part000.consume_pending_notice bd = (None, bd).
Proof.
  intros H. unfold Part000.consume_pending_notice. rewrite H.
  repeat case_decide; congruence.
Qed.

Lemma consume_n_none consume n bd :
  consume bd = (None, bd) ->
  consume_n consume n bd = (replicate n None, bd).
Proof.
  intros H. induction n as [|n IH]; simpl; [reflexivity|].
  rewrite H, IH. reflexivity.
Qed.

Lemma main_consume_available bd avail :
  Main.consume_pending_notice (set_admin bd avail "available")
  = (Some Main.AVAILABLE_NOTICE,
     clear_status_changed (set_admin bd avail "available")).
Proof. reflexivity. Qed.

Lemma main_consume_away bd avail :
  Main.consume_pending_notice (set_admin bd avail "away")
  = (Some Main.AWAY_NOTICE, clear_status_changed (set_admin bd avail "away")).
Proof. reflexivity. Qed.

Lemma part_consume_available bd avail :
  Part000.consume_pending_notice (set_admin bd avail "available")
  = (Some Part000.AVAILABLE_NOTICE,
     clear_status_changed (set_admin bd avail "available")).
Proof. reflexivity. Qed.

Lemma part_consume_away bd avail :
  Part000.consume_pending_notice (set_admin bd avail "away")
  = (Some Part000.BUSY_NOTICE,
     clear_status_changed (set_admin bd avail "away")).
Proof. reflexivity. Qed.

Lemma main_admin_sets ADMIN_ID u s :
  effective_user_id u = ADMIN_ID ->
  bot_data (st (Main.available_cmd ADMIN_ID u s))
  = set_admin (bot_data s) true "available"
  /\ bot_data (st (Main.away_cmd ADMIN_ID u s))
     = set_admin (bot_data s) false "away".
Proof.
  intros H. unfold Main.available_cmd, Main.away_cmd.
  split; case_decide; try contradiction; reflexivity.
Qed.

Lemma part_admin_sets ADMIN_ID u s :
  effective_user_id u = ADMIN_ID ->
  bot_data (st (Part000.available_cmd ADMIN_ID u s))
  = set_admin (bot_data s) true "available"
  /\ bot_data (st (Part000.away_cmd ADMIN_ID u s))
     = set_admin (bot_data s) false "away".
Proof.
  intros H. unfold Part000.available_cmd, Part000.away_cmd.
  split; case_decide; try contradiction; reflexivity.
Qed.

Lemma consume_n_once consume n bd notice :
  consume bd = (Some notice, clear_status_changed bd) ->
  consume (clear_status_changed bd) = (None, clear_status_changed bd) ->
  consume_n consume (S n) bd
  = (Some notice :: replicate n None, clear_status_changed bd).
Proof.
  intros H1 H2. simpl. rewrite H1, (consume_n_none _ _ _ H2). reflexivity.
Qed.

(** C1. In both scripts, from any state, once the admin has run
    [/available] (resp. [/away]), the first read of the pending notice
    returns the "available" (resp. "away") notice and leaves no notice
    pending, and every later read returns nothing, however many there
    are, until the next such command. The two notices differ. *)
Theorem pending_notice_consumed_once
  (ADMIN_ID : Z) (u : update) (s : state) (n : nat) :
  effective_user_id u = ADMIN_ID ->
  let m_av := bot_data (st (Main.available_cmd ADMIN_ID u s)) in
  let m_aw := bot_data (st (Main.away_cmd ADMIN_ID u s)) in
  let p_av := bot_data (st (Part000.available_cmd ADMIN_ID u s)) in
  let p_aw := bot_data (st (Part000.away_cmd ADMIN_ID u s)) in
  (consume_n Main.consume_pending_notice (S n) m_av
   = (Some Main.AVAILABLE_NOTICE :: replicate n None,
      clear_status_changed m_av)
   /\ consume_n Main.consume_pending_notice (S n) m_aw
      = (Some Main.AWAY_NOTICE :: replicate n None,
         clear_status_changed m_aw)
   /\ Main.AVAILABLE_NOTICE <> Main.AWAY_NOTICE)
  /\ (consume_n Part000.consume_pending_notice (S n) p_av
      = (Some Part000.AVAILABLE_NOTICE :: replicate n None,
         clear_status_changed p_av)
      /\ consume_n Part000.consume_pending_notice (S n) p_aw
         = (Some Part000.BUSY_NOTICE :: replicate n None,
            clear_status_changed p_aw)
      /\ Part000.AVAILABLE_NOTICE <> Part000.BUSY_NOTICE)
  /\ (forall bd, admin_status_changed (clear_status_changed bd) = None).
Proof.
  intros Hadmin; cbv zeta.
  destruct (main_admin_sets ADMIN_ID u s Hadmin) as [-> ->].
  destruct (part_admin_sets ADMIN_ID u s Hadmin) as [-> ->].
  split; [|split]; [split; [|split] | split; [|split] | reflexivity].
  - exact (consume_n_once _ n _ _ (main_consume_available _ _)
             (main_consume_none (clear_status_changed _) eq_refl)).
  - exact (consume_n_once _ n _ _ (main_consume_away _ _)
             (main_consume_none (clear_status_changed _) eq_refl)).
  - intros H; vm_compute in H; discriminate H.
  - exact (consume_n_once _ n _ _ (part_consume_available _ _)
             (part_consume_none (clear_status_changed _) eq_refl)).
  - exact (consume_n_once _ n _ _ (part_consume_away _ _)
             (part_consume_none (clear_status_changed _) eq_refl)).
  - intros H; vm_compute in H; discriminate H.
Qed.

(** The admin of the examples is user 1; user 5 is somebody else. *)
Lemma pending_notice_consumed_once_witness :
  effective_user_id (command_update 1 "away") = 1
  /\ consume_n Main.consume_pending_notice 3
       (bot_data (st (Main.away_cmd 1 (command_update 1 "away") initial_state)))
     = ([Some Main.AWAY_NOTICE; None; None],
        clear_status_changed
          (bot_data
             (st (Main.away_cmd 1 (command_update 1 "away") initial_state)))).
Proof.
  split; [reflexivity|].
  exact (proj1 (proj2 (proj1
    (pending_notice_consumed_once 1 (command_update 1 "away") initial_state 2
       eq_refl)))).
Defined.

(** ** The cooldown gate *)

Lemma Qltb_lt x y : Qltb x y = true <-> (x < y)%Q.
Proof.
  unfold Qltb. rewrite Qlt_alt. destruct (x ?= y)%Q; split; congruence.
Qed.

Lemma Qltb_nlt x y : Qltb x y = false <-> ~ (x < y)%Q.
Proof.
  rewrite <- Qltb_lt. destruct (Qltb x y); split; congruence.
Qed.

Lemma context_user_data_insert s bd uid ud :
  context_user_data {| bot_data := bd; user_data := <[uid := ud]> (user_data s) |} uid
  = ud.
Proof. unfold context_user_data; simpl. by rewrite lookup_insert_eq. Qed.

Lemma context_user_data_insert_ne s bd uid uid' ud :
  uid <> uid' ->
  context_user_data {| bot_data := bd; user_data := <[uid := ud]> (user_data s) |} uid'
  = context_user_data s uid'.
Proof.
  intros H. unfold context_user_data; simpl. by rewrite lookup_insert_ne.
Qed.

Lemma main_user_spam_blocked t ud :
  (t - default 0%Q (last_time ud) < 3 # 2)%Q ->
  Main.user_spam t ud = (true, ud).
Proof.
  intros H. unfold Main.user_spam. apply Qltb_lt in H. by rewrite H.
Qed.

Lemma main_user_spam_passed t ud :
  ~ (t - default 0%Q (last_time ud) < 3 # 2)%Q ->
  Main.user_spam t ud = (false, set_last_time ud t).
Proof.
  intros H. unfold Main.user_spam. apply Qltb_nlt in H. by rewrite H.
Qed.

Lemma part_user_spam_blocked t ud :
  (t - default 0%Q (last_time ud) < 6 # 5)%Q ->
  Part000.user_spam t ud = (true, ud).
Proof.
  intros H. unfold Part000.user_spam. apply Qltb_lt in H. by rewrite H.
Qed.

Lemma part_user_spam_passed t ud :
  ~ (t - default 0%Q (last_time ud) < 6 # 5)%Q ->
  Part000.user_spam t ud = (false, set_last_time ud t).
Proof.
  intros H. unfold Part000.user_spam. apply Qltb_nlt in H. by rewrite H.
Qed.

(** What a call of [handle_message] that passed the gate leaves in the
    user's store: the time stamp is the clock's, and [busy_shown] is as
    before or has been set. *)
Lemma main_handle_passed ADMIN_ID lower u e s :
  let uid := effective_user_id u in
  let ud := context_user_data s uid in
  ~ (now e - default 0%Q (last_time ud) < 3 # 2)%Q ->
  exists ud',
    user_data (st (Main.handle_message ADMIN_ID lower u e s))
    = <[uid := ud']> (user_data s)
    /\ last_time ud' = Some (now e)
    /\ (busy_shown ud' = busy_shown ud \/ busy_shown ud' = Some true).
Proof.
  intros uid ud H. unfold Main.handle_message. fold uid. fold ud.
  rewrite (main_user_spam_passed _ _ H).
  destruct (Main.silent_forward ADMIN_ID u e (bot_data s)) as [bd fwd].
  destruct (Main.consume_pending_notice bd) as [[notice|] bd'].
  - exists (set_last_time ud (now e)). simpl. auto.
  - destruct (Main.safe_ask_gemini lower e _);
      exists (set_busy_shown (set_last_time ud (now e)) true); simpl; auto.
Qed.

Lemma part_handle_passed ADMIN_ID lower u e s :
  let uid := effective_user_id u in
  let ud := context_user_data s uid in
  ~ (now e - default 0%Q (last_time ud) < 6 # 5)%Q ->
  exists ud',
    user_data (st (Part000.handle_message ADMIN_ID lower u e s))
    = <[uid := ud']> (user_data s)
    /\ last_time ud' = Some (now e)
    /\ (busy_shown ud' = busy_shown ud \/ busy_shown ud' = Some true).
Proof.
  intros uid ud H. unfold Part000.handle_message. fold uid. fold ud.
  rewrite (part_user_spam_passed _ _ H).
  case_decide.
  { exists (set_last_time ud (now e)). simpl. auto. }
  destruct (Part000.silent_forward ADMIN_ID u e (bot_data s)) as [bd fwd].
  destruct (Part000.consume_pending_notice bd) as [[notice|] bd'].
  - exists (set_last_time ud (now e)). simpl. auto.
  - exists (set_busy_shown (set_last_time ud (now e)) true).
    destruct (default false (admin_available bd'));
      [|destruct (negb _)]; simpl; auto.
Qed.

Lemma main_handle_blocked ADMIN_ID lower u e s :
  (now e - default 0%Q (last_time (context_user_data s (effective_user_id u)))
   < 3 # 2)%Q ->
  Main.handle_message ADMIN_ID lower u e s = done_with s [].
Proof.
  intros H. unfold Main.handle_message.
  by rewrite (main_user_spam_blocked _ _ H).
Qed.

Lemma part_handle_blocked ADMIN_ID lower u e s :
  (now e - default 0%Q (last_time (context_user_data s (effective_user_id u)))
   < 6 # 5)%Q ->
  Part000.handle_message ADMIN_ID lower u e s = done_with s [].
Proof.
  intros H. unfold Part000.handle_message.
  by rewrite (part_user_spam_blocked _ _ H).
Qed.

Lemma last_time_after s uid ud' m :
  user_data m = <[uid := ud']> (user_data s) ->
  last_time (context_user_data m uid) = last_time ud'.
Proof.
  intros H. unfold context_user_data. by rewrite H, lookup_insert_eq.
Qed.

(** C2. In both scripts (interval 1.5 s in [main.py], 1.2 s in
    [part_000]): a text that reaches [handle_message] less than the
    interval after the user's [last_time] (0 when there is none) is
    blocked by the gate, which leaves the time stamp as it was, and the
    handler stops there: nothing is forwarded, nothing is answered, the
    stores are unchanged. Otherwise the gate returns false after setting
    the time stamp to the clock's value, the stamp is still that value when
    the handler ends, and a second text of the same user less than the
    interval later is dropped in the same way. *)
Theorem cooldown_gate
  (ADMIN_ID : Z) (lower : pystr -> pystr) (u u2 : update) (e e2 : env)
  (s : state) :
  let uid := effective_user_id u in
  let ud := context_user_data s uid in
  let last := default 0%Q (last_time ud) in
  let m1 := st (Main.handle_message ADMIN_ID lower u e s) in
  let p1 := st (Part000.handle_message ADMIN_ID lower u e s) in
  (((now e - last < 3 # 2)%Q ->
    Main.user_spam (now e) ud = (true, ud)
    /\ Main.handle_message ADMIN_ID lower u e s = done_with s [])
   /\ (~ (now e - last < 3 # 2)%Q ->
       Main.user_spam (now e) ud = (false, set_last_time ud (now e))
       /\ last_time (context_user_data m1 uid) = Some (now e)
       /\ (effective_user_id u2 = uid -> (now e2 - now e < 3 # 2)%Q ->
           Main.handle_message ADMIN_ID lower u2 e2 m1 = done_with m1 [])))
  /\ (((now e - last < 6 # 5)%Q ->
       Part000.user_spam (now e) ud = (true, ud)
       /\ Part000.handle_message ADMIN_ID lower u e s = done_with s [])
      /\ (~ (now e - last < 6 # 5)%Q ->
          Part000.user_spam (now e) ud = (false, set_last_time ud (now e))
          /\ last_time (context_user_data p1 uid) = Some (now e)
          /\ (effective_user_id u2 = uid -> (now e2 - now e < 6 # 5)%Q ->
              Part000.handle_message ADMIN_ID lower u2 e2 p1
              = done_with p1 []))).
Proof.
  intros uid ud last m1 p1.
  split; (split; [intros H; split|intros H]).
  - by apply main_user_spam_blocked.
  - by apply main_handle_blocked.
  - destruct (main_handle_passed ADMIN_ID lower u e s H) as (ud' & Hm & Ht & _).
    assert (Hl : last_time (context_user_data m1 uid) = Some (now e)).
    { unfold m1, uid. by rewrite (last_time_after _ _ _ _ Hm). }
    split; [by apply main_user_spam_passed|]. split; [exact Hl|].
    intros Hu Hlt. apply main_handle_blocked. rewrite Hu, Hl. exact Hlt.
  - by apply part_user_spam_blocked.
  - by apply part_handle_blocked.
  - destruct (part_handle_passed ADMIN_ID lower u e s H) as (ud' & Hm & Ht & _).
    assert (Hl : last_time (context_user_data p1 uid) = Some (now e)).
    { unfold p1, uid. by rewrite (last_time_after _ _ _ _ Hm). }
    split; [by apply part_user_spam_passed|]. split; [exact Hl|].
    intros Hu Hlt. apply part_handle_blocked. rewrite Hu, Hl. exact Hlt.
Qed.

(** User 5 writes at 1000 s (accepted) and again at 1001 s (dropped). *)
Lemma cooldown_gate_witness :
  (~ (1000 - 0 < 3 # 2)%Q /\ (1001 - 1000 < 3 # 2)%Q)
  /\ Main.handle_message 1 ascii_lower (text_update 5 (lit "again"))
       (sample_env 1001)
       (st (Main.handle_message 1 ascii_lower (text_update 5 (lit "Need help"))
              (sample_env 1000) initial_state))
     = done_with
         (st (Main.handle_message 1 ascii_lower (text_update 5 (lit "Need help"))
                (sample_env 1000) initial_state)) [].
Proof.
  split; [split; [intros H; vm_compute in H; discriminate H | reflexivity]|].
  refine (proj2 (proj2 (proj2 (proj1
    (cooldown_gate 1 ascii_lower (text_update 5 (lit "Need help"))
       (text_update 5 (lit "again")) (sample_env 1000) (sample_env 1001)
       initial_state)) _)) eq_refl eq_refl).
  intros H; vm_compute in H; discriminate H.
Defined.

(** ** The correlation map *)

Ltac unfold_handlers :=
  unfold Main.dispatch, Main.start_cmd, Main.available_cmd, Main.away_cmd,
    Main.admin_reply_handler, Main.handle_message, Main.user_spam,
    Main.silent_forward, Main.consume_pending_notice,
    Part000.dispatch, Part000.start_cmd, Part000.available_cmd,
    Part000.away_cmd, Part000.admin_reply_handler, Part000.photo_handler,
    Part000.handle_message, Part000.user_spam, Part000.silent_forward,
    Part000.consume_pending_notice, done_with, set_bot_data, set_user_data.

Ltac handler_cases :=
  unfold_handlers;
  repeat first [case_decide | case_match]; simplify_eq/=.

Lemma resolve_record_eq bd x c : resolve (record_forward bd x c) x = Some c.
Proof. unfold resolve, record_forward; simpl. apply lookup_insert_eq. Qed.

Lemma resolve_record_ne bd x x' c :
  x' <> x -> resolve (record_forward bd x' c) x = resolve bd x.
Proof.
  intros H. unfold resolve, record_forward; simpl. by apply lookup_insert_ne.
Qed.


Lemma main_dispatch_forwarded_map ADMIN_ID lower u e s :
  forwarded_map (bot_data (st (Main.dispatch ADMIN_ID lower u e s)))
  = forwarded_map (bot_data s)
  \/ exists fwd, forward_result e = Some fwd
     /\ forwarded_map (bot_data (st (Main.dispatch ADMIN_ID lower u e s)))
        = forwarded_map (record_forward (bot_data s) fwd (effective_chat_id u)).
Proof. handler_cases; eauto. Qed.

Lemma part_dispatch_forwarded_map ADMIN_ID lower u e s :
  forwarded_map (bot_data (st (Part000.dispatch ADMIN_ID lower u e s)))
  = forwarded_map (bot_data s)
  \/ exists fwd, forward_result e = Some fwd
     /\ forwarded_map (bot_data (st (Part000.dispatch ADMIN_ID lower u e s)))
        = forwarded_map (record_forward (bot_data s) fwd (effective_chat_id u)).
Proof. handler_cases; eauto. Qed.

Lemma resolve_forwarded_map bd bd' y :
  forwarded_map bd = forwarded_map bd' -> resolve bd y = resolve bd' y.
Proof. unfold resolve. by intros ->. Qed.


Lemma main_reply_found ADMIN_ID u e s x c :
  effective_user_id u = ADMIN_ID -> reply_to_message u = Some x ->
  resolve (bot_data s) x = Some c -> c <> 0 -> send_result e = None ->
  Main.admin_reply_handler ADMIN_ID u e s
  = done_with s
      [send_message c (lit "💬 Admin: " ++ message_text u);
       reply_text (effective_chat_id u) (lit "✅ Sent to user.")].
Proof.
  intros Hu Hr Hx Hc He. unfold Main.admin_reply_handler.
  case_decide; [contradiction|]. rewrite Hr, Hx, He. simpl.
  destruct (Z.eqb_spec c 0); [contradiction|reflexivity].
Qed.

Lemma part_reply_found ADMIN_ID u e s x c :
  effective_user_id u = ADMIN_ID -> reply_to_message u = Some x ->
  resolve (bot_data s) x = Some c -> c <> 0 -> send_result e = None ->
  Part000.admin_reply_handler ADMIN_ID u e s
  = done_with s
      [send_message c (message_text u);
       reply_text (effective_chat_id u) (lit "Message sent ✅")].
Proof.
  intros Hu Hr Hx Hc He. unfold Part000.admin_reply_handler.
  case_decide; [contradiction|]. rewrite Hr, Hx, He. simpl.
  destruct (Z.eqb_spec c 0); [contradiction|reflexivity].
Qed.











(** ** Authorization of the setters *)

Lemma main_dispatch_available ADMIN_ID lower u e s t :
  message u = Text t (Some "available") ->
  Main.dispatch ADMIN_ID lower u e s = Main.available_cmd ADMIN_ID u s.
Proof. intros H. unfold Main.dispatch. rewrite H. reflexivity. Qed.

Lemma main_dispatch_away ADMIN_ID lower u e s t :
  message u = Text t (Some "away") ->
  Main.dispatch ADMIN_ID lower u e s = Main.away_cmd ADMIN_ID u s.
Proof. intros H. unfold Main.dispatch. rewrite H. reflexivity. Qed.

Lemma part_dispatch_available ADMIN_ID lower u e s t :
  message u = Text t (Some "available") ->
  Part000.dispatch ADMIN_ID lower u e s = Part000.available_cmd ADMIN_ID u s.
Proof. intros H. unfold Part000.dispatch. rewrite H. reflexivity. Qed.

Lemma part_dispatch_away ADMIN_ID lower u e s t :
  message u = Text t (Some "away") ->
  Part000.dispatch ADMIN_ID lower u e s = Part000.away_cmd ADMIN_ID u s.
Proof. intros H. unfold Part000.dispatch. rewrite H. reflexivity. Qed.

(** C4. In both scripts, [/available] and [/away] from a user who is not
    the configured admin leave the stores as they were, [admin_available]
    and [admin_status_changed] included, and send one message, the
    rejection "Not allowed.", in the chat of the command. The commands
    reach these handlers whoever sends them. *)
Theorem setters_reject_non_admin
  (ADMIN_ID : Z) (lower : pystr -> pystr) (u : update) (e : env) (s : state) :
  effective_user_id u <> ADMIN_ID ->
  let rejected :=
    {| st := s;
       out := [reply_text (effective_chat_id u) (lit "❌ Not allowed.")];
       raised := None |} in
  (Main.available_cmd ADMIN_ID u s = rejected
   /\ Main.away_cmd ADMIN_ID u s = rejected
   /\ Part000.available_cmd ADMIN_ID u s = rejected
   /\ Part000.away_cmd ADMIN_ID u s = rejected)
  /\ (forall t, message u = Text t (Some "available") ->
      Main.dispatch ADMIN_ID lower u e s = rejected
      /\ Part000.dispatch ADMIN_ID lower u e s = rejected)
  /\ (forall t, message u = Text t (Some "away") ->
      Main.dispatch ADMIN_ID lower u e s = rejected
      /\ Part000.dispatch ADMIN_ID lower u e s = rejected).
Proof.
  intros Hu rejected.
  assert (H : Main.available_cmd ADMIN_ID u s = rejected
              /\ Main.away_cmd ADMIN_ID u s = rejected
              /\ Part000.available_cmd ADMIN_ID u s = rejected
              /\ Part000.away_cmd ADMIN_ID u s = rejected).
  { unfold Main.available_cmd, Main.away_cmd, Part000.available_cmd,
      Part000.away_cmd.
    repeat split; case_decide; try contradiction; reflexivity. }
  split; [exact H|]. destruct H as (H1 & H2 & H3 & H4).
  split; intros t Ht.
  - rewrite (main_dispatch_available _ _ _ _ _ _ Ht),
      (part_dispatch_available _ _ _ _ _ _ Ht). by split.
  - rewrite (main_dispatch_away _ _ _ _ _ _ Ht),
      (part_dispatch_away _ _ _ _ _ _ Ht). by split.
Qed.

(** User 5 sends [/away] while user 1 is the admin. *)
Lemma setters_reject_non_admin_witness :
  effective_user_id (command_update 5 "away") <> 1
  /\ Main.dispatch 1 ascii_lower (command_update 5 "away") (sample_env 1000)
       initial_state
     = {| st := initial_state;
          out := [reply_text 5 (lit "❌ Not allowed.")];
          raised := None |}.
Proof.
  assert (Hu : effective_user_id (command_update 5 "away") <> 1)
    by (simpl; lia).
  split; [exact Hu|].
  exact (proj1 (proj2 (proj2
    (setters_reject_non_admin 1 ascii_lower (command_update 5 "away")
       (sample_env 1000) initial_state Hu)) (lit "/away") eq_refl)).
Defined.

(** ** The away notice for a first-time user *)

Lemma main_dispatch_plain ADMIN_ID lower u e s t :
  message u = Text t None -> reply_to_message u = None ->
  Main.dispatch ADMIN_ID lower u e s = Main.handle_message ADMIN_ID lower u e s.
Proof.
  intros Hm Hr. unfold Main.dispatch. rewrite Hm, Hr.
  repeat case_decide; try congruence; try reflexivity.
  exfalso; eapply is_Some_None; eassumption.
Qed.

Lemma part_dispatch_plain ADMIN_ID lower u e s t :
  message u = Text t None -> reply_to_message u = None ->
  Part000.dispatch ADMIN_ID lower u e s
  = Part000.handle_message ADMIN_ID lower u e s.
Proof.
  intros Hm Hr. unfold Part000.dispatch. rewrite Hm, Hr.
  repeat case_decide; try congruence; try reflexivity.
  exfalso; eapply is_Some_None; eassumption.
Qed.

Lemma context_user_data_fresh s uid :
  user_data s !! uid = None -> context_user_data s uid = no_user_data.
Proof. intros H. unfold context_user_data. by rewrite H. Qed.

Lemma main_first_text_after_away ADMIN_ID lower u e s fwd :
  admin_status_changed (bot_data s) = Some "away" ->
  user_data s !! effective_user_id u = None ->
  ~ (now e - 0 < 3 # 2)%Q ->
  forward_result e = Some fwd ->
  Main.handle_message ADMIN_ID lower u e s
  = {| st :=
         {| bot_data :=
              clear_status_changed
                (record_forward (bot_data s) fwd (effective_chat_id u));
            user_data :=
              <[effective_user_id u :=
                  {| last_time := Some (now e); busy_shown := None |}]>
                (user_data s) |};
       out :=
         [forward_message ADMIN_ID (effective_chat_id u) (message_id u)]
         ++ Main.type_animation u e
         ++ [reply_text (effective_chat_id u) Main.AWAY_NOTICE];
       raised := None |}.
Proof.
  intros Hs Hfresh Hgate Hf. unfold Main.handle_message.
  rewrite (context_user_data_fresh _ _ Hfresh).
  rewrite (main_user_spam_passed _ no_user_data Hgate).
  unfold Main.silent_forward, Main.consume_pending_notice. rewrite Hf.
  simpl. rewrite Hs. reflexivity.
Qed.

Lemma part_first_text_after_away ADMIN_ID lower u e s fwd :
  admin_status_changed (bot_data s) = Some "away" ->
  user_data s !! effective_user_id u = None ->
  ~ (now e - 0 < 6 # 5)%Q ->
  forward_result e = Some fwd ->
  lower (take 500 (message_text u)) ∉ Part000.greetings ->
  Part000.handle_message ADMIN_ID lower u e s
  = {| st :=
         {| bot_data :=
              clear_status_changed
                (record_forward (bot_data s) fwd (effective_chat_id u));
            user_data :=
              <[effective_user_id u :=
                  {| last_time := Some (now e); busy_shown := None |}]>
                (user_data s) |};
       out :=
         [forward_message ADMIN_ID (effective_chat_id u) (message_id u)]
         ++ Part000.type_animation u e
         ++ [reply_text (effective_chat_id u) Part000.BUSY_NOTICE];
       raised := None |}.
Proof.
  intros Hs Hfresh Hgate Hf Hg. unfold Part000.handle_message.
  rewrite (context_user_data_fresh _ _ Hfresh).
  rewrite (part_user_spam_passed _ no_user_data Hgate).
  case_decide; [contradiction|].
  unfold Part000.silent_forward, Part000.consume_pending_notice. rewrite Hf.
  simpl. rewrite Hs. reflexivity.
Qed.

Lemma gate_open_main (t : Q) : (3 # 2 <= t)%Q -> ~ (t - 0 < 3 # 2)%Q.
Proof. intros H1 H2. lra. Qed.

Lemma gate_open_part (t : Q) : (3 # 2 <= t)%Q -> ~ (t - 0 < 6 # 5)%Q.
Proof. intros H1 H2. lra. Qed.

(** C5. In both scripts: the admin sends [/away]; then a user for whom
    nothing is stored yet sends a text that is no command, no reply and
    (in [part_000]) no greeting, at a clock value that passes the gate, and
    the forward succeeds with identifier [fwd]. The handler forwards the
    message to the admin, records [fwd] for the user's chat, sends the
    filler when it can, then sends the away notice, and stops: the pending
    notice is cleared, [admin_available] stays false, the generative
    service is not consulted, and the first-time logic is not run
    ([busy_shown] stays unset; the notice is the only answer sent). *)
Theorem away_notice_for_first_text
  (ADMIN_ID : Z) (lower : pystr -> pystr) (ua u : update) (ea e : env)
  (s : state) (ta t : pystr) (fwd : Z) :
  effective_user_id ua = ADMIN_ID ->
  message ua = Text ta (Some "away") ->
  message u = Text t None ->
  reply_to_message u = None ->
  user_data s !! effective_user_id u = None ->
  (3 # 2 <= now e)%Q ->
  forward_result e = Some fwd ->
  let m := st (Main.dispatch ADMIN_ID lower ua ea s) in
  let p := st (Part000.dispatch ADMIN_ID lower ua ea s) in
  let after :=
    {| bot_data :=
         {| admin_available := Some false;
            admin_status_changed := None;
            forwarded_map :=
              Some (<[fwd := effective_chat_id u]>
                      (default ∅ (forwarded_map (bot_data s)))) |};
       user_data :=
         <[effective_user_id u :=
             {| last_time := Some (now e); busy_shown := None |}]>
           (user_data s) |} in
  Main.dispatch ADMIN_ID lower u e m
  = {| st := after;
       out :=
         [forward_message ADMIN_ID (effective_chat_id u) (message_id u)]
         ++ Main.type_animation u e
         ++ [reply_text (effective_chat_id u) Main.AWAY_NOTICE];
       raised := None |}
  /\ (lower (take 500 t) ∉ Part000.greetings ->
      Part000.dispatch ADMIN_ID lower u e p
      = {| st := after;
           out :=
             [forward_message ADMIN_ID (effective_chat_id u) (message_id u)]
             ++ Part000.type_animation u e
             ++ [reply_text (effective_chat_id u) Part000.BUSY_NOTICE];
           raised := None |})
  /\ resolve (bot_data after) fwd = Some (effective_chat_id u).
Proof.
  intros Hadmin Hma Hm Hr Hfresh Hnow Hf m p after.
  assert (Hms : m = set_bot_data s (set_admin (bot_data s) false "away")).
  { unfold m. rewrite (main_dispatch_away _ _ _ _ _ _ Hma).
    unfold Main.away_cmd. case_decide; [contradiction|reflexivity]. }
  assert (Hps : p = set_bot_data s (set_admin (bot_data s) false "away")).
  { unfold p. rewrite (part_dispatch_away _ _ _ _ _ _ Hma).
    unfold Part000.away_cmd. case_decide; [contradiction|reflexivity]. }
  split; [|split].
  - rewrite (main_dispatch_plain _ _ _ _ _ _ Hm Hr), Hms.
    rewrite (main_first_text_after_away _ _ _ _ _ fwd); try done.
    by apply gate_open_main.
  - intros Hg.
    rewrite (part_dispatch_plain _ _ _ _ _ _ Hm Hr), Hps.
    rewrite (part_first_text_after_away _ _ _ _ _ fwd); try done.
    + by apply gate_open_part.
    + unfold message_text. by rewrite Hm.
  - unfold resolve; simpl. apply lookup_insert_eq.
Qed.

(** The admin (user 1) sends [/away]; user 5 then sends "Need help". *)
Lemma away_notice_for_first_text_witness :
  (3 # 2 <= 1000)%Q
  /\ out (Main.dispatch 1 ascii_lower (text_update 5 (lit "Need help"))
            (sample_env 1000)
            (st (Main.dispatch 1 ascii_lower (command_update 1 "away")
                   (sample_env 990) initial_state)))
     = [forward_message 1 5 40; reply_text 5 (lit "💬 Bot is typing…");
        reply_text 5 Main.AWAY_NOTICE].
Proof.
  assert (Hnow : (3 # 2 <= now (sample_env 1000))%Q)
    by (intros H; vm_compute in H; discriminate H).
  split; [exact Hnow|].
  exact (f_equal out (proj1
    (away_notice_for_first_text 1 ascii_lower (command_update 1 "away")
       (text_update 5 (lit "Need help")) (sample_env 990) (sample_env 1000)
       initial_state (lit "/away") (lit "Need help") 900
       eq_refl eq_refl eq_refl eq_refl eq_refl Hnow eq_refl))).
Defined.

(** ** The [busy_shown] latch *)

Lemma main_dispatch_user_data ADMIN_ID lower :
  touches_sender_only (Main.dispatch ADMIN_ID lower).
Proof.
  intros u e s. handler_cases;
    first [ by left
          | right; eexists; split; [reflexivity|]; simpl; by auto ].
Qed.

Lemma part_dispatch_user_data ADMIN_ID lower :
  touches_sender_only (Part000.dispatch ADMIN_ID lower).
Proof.
  intros u e s. handler_cases;
    first [ by left
          | right; eexists; split; [reflexivity|]; simpl; by auto ].
Qed.

Lemma latch_step step u e s uid :
  touches_sender_only step ->
  has_busy_shown s uid = true ->
  has_busy_shown (st (step u e s)) uid = true.
Proof.
  intros Hstep Hb. unfold has_busy_shown, context_user_data in *.
  destruct (Hstep u e s) as [-> | (ud' & -> & Hud)]; [exact Hb|].
  destruct (decide (effective_user_id u = uid)) as [<- | Hne].
  - rewrite lookup_insert_eq; simpl.
    destruct Hud as [-> | ->]; [exact Hb | reflexivity].
  - by rewrite lookup_insert_ne.
Qed.

Lemma latch_run step evs s uid :
  touches_sender_only step ->
  has_busy_shown s uid = true ->
  has_busy_shown (run step s evs) uid = true.
Proof.
  intros Hstep. revert s.
  induction evs as [|[u e] evs IH]; intros s Hb; [exact Hb|].
  unfold run; simpl. apply IH. by apply latch_step.
Qed.

(** Once set, the latch never trips again. *)
Lemma latch_count_set step evs s uid :
  touches_sender_only step ->
  has_busy_shown s uid = true ->
  latch_count uid (states step s evs) = 0%nat.
Proof.
  intros Hstep. revert s.
  induction evs as [|[u e] evs IH]; intros s Hb; [reflexivity|].
  change (states step s ((u, e) :: evs))
    with (s :: states step (st (step u e s)) evs).
  pose proof (latch_step step u e s uid Hstep Hb) as Hb'.
  specialize (IH _ Hb').
  destruct evs as [|ev evs]; simpl in *; rewrite Hb; simpl; [reflexivity|].
  exact IH.
Qed.

Lemma latch_count_le_1 step evs s uid :
  touches_sender_only step ->
  (latch_count uid (states step s evs) <= 1)%nat.
Proof.
  intros Hstep. revert s.
  induction evs as [|[u e] evs IH]; intros s; [simpl; lia|].
  change (states step s ((u, e) :: evs))
    with (s :: states step (st (step u e s)) evs).
  set (s' := st (step u e s)).
  assert (Hhd : exists tl, states step s' evs = s' :: tl)
    by (destruct evs; simpl; eauto).
  destruct Hhd as [tl Htl].
  specialize (IH s'). simpl. rewrite Htl in *.
  destruct (has_busy_shown s' uid) eqn:Hb'.
  - pose proof (latch_count_set step evs s' uid Hstep Hb') as H0.
    rewrite Htl in H0. rewrite H0. destruct (negb _); simpl; lia.
  - rewrite andb_false_r. simpl. exact IH.
Qed.

(** C6. In both scripts, over every run of the router (commands, admin
    replies, texts, photos, whatever the transport and the service do), a
    user's [busy_shown] once true is true after every later update, and
    it goes from false to true at most once. *)
Theorem busy_shown_latch
  (ADMIN_ID : Z) (lower : pystr -> pystr) (uid : Z) (s : state)
  (u : update) (e : env) (evs : list (update * env)) :
  (has_busy_shown s uid = true ->
   (has_busy_shown (st (Main.dispatch ADMIN_ID lower u e s)) uid = true
    /\ has_busy_shown (run (Main.dispatch ADMIN_ID lower) s evs) uid = true)
   /\ (has_busy_shown (st (Part000.dispatch ADMIN_ID lower u e s)) uid = true
       /\ has_busy_shown (run (Part000.dispatch ADMIN_ID lower) s evs) uid
          = true))
  /\ (latch_count uid (states (Main.dispatch ADMIN_ID lower) s evs) <= 1)%nat
  /\ (latch_count uid (states (Part000.dispatch ADMIN_ID lower) s evs) <= 1)%nat.
Proof.
  pose proof (main_dispatch_user_data ADMIN_ID lower) as Hm.
  pose proof (part_dispatch_user_data ADMIN_ID lower) as Hp.
  split; [intros Hb; repeat split|split].
  - by apply latch_step.
  - by apply latch_run.
  - by apply latch_step.
  - by apply latch_run.
  - by apply latch_count_le_1.
  - by apply latch_count_le_1.
Qed.

(** User 5 has been through the first-time logic; the admin then sends
    [/away] and user 5 writes again. *)
Lemma busy_shown_latch_witness :
  has_busy_shown
    (st (Main.dispatch 1 ascii_lower (text_update 5 (lit "Need help"))
           (sample_env 1000) initial_state)) 5 = true
  /\ has_busy_shown
       (run (Main.dispatch 1 ascii_lower)
          (st (Main.dispatch 1 ascii_lower (text_update 5 (lit "Need help"))
                 (sample_env 1000) initial_state))
          [(command_update 1 "away", sample_env 1500);
           (text_update 5 (lit "Hello?"), sample_env 2000)]) 5 = true.
Proof.
  assert (Hb : has_busy_shown
    (st (Main.dispatch 1 ascii_lower (text_update 5 (lit "Need help"))
           (sample_env 1000) initial_state)) 5 = true) by reflexivity.
  split; [exact Hb|].
  exact (proj2 (proj1 (proj1
    (busy_shown_latch 1 ascii_lower 5 _ (command_update 1 "away")
       (sample_env 1500)
       [(command_update 1 "away", sample_env 1500);
        (text_update 5 (lit "Hello?"), sample_env 2000)]) Hb))).
Defined.

(** ** The reply synthesizer *)

Lemma random_choice_singleton r x : random_choice r [x] = x.
Proof.
  unfold random_choice. change (length [x]) with 1%nat.
  by rewrite Nat.mod_1_r.
Qed.

Lemma main_ask_raises lower e p ex :
  Main.safe_ask_gemini lower e p = inr ex ->
  exn_is_Exception ex = false /\ generate e p = Raises ex.
Proof.
  unfold Main.safe_ask_gemini, Main.ask_gemini.
  destruct (generate e p) as [resp | ex'].
  - destruct (resp_text resp) as [[|c t]|];
      destruct (resp_candidates resp); discriminate.
  - destruct (exn_is_Exception ex') eqn:Hex; [discriminate|].
    rewrite Hex. intros [= <-]. by split.
Qed.

Lemma main_ask_exception lower e p ex :
  generate e p = Raises ex -> exn_is_Exception ex = true ->
  Main.safe_ask_gemini lower e p = inl (lit "Message sent ✅.").
Proof.
  intros Hg Hex. unfold Main.safe_ask_gemini, Main.ask_gemini.
  rewrite Hg, Hex. unfold Main.FALLBACK_RESPONSES.
  by rewrite random_choice_singleton.
Qed.

Lemma main_ask_no_text lower e p resp :
  generate e p = Returns resp ->
  resp_text resp = None \/ resp_text resp = Some [] ->
  Main.safe_ask_gemini lower e p
  = inl match resp_candidates resp with
        | cand :: _ => strip cand
        | [] => resp_str resp
        end.
Proof.
  intros Hg Ht. unfold Main.safe_ask_gemini, Main.ask_gemini. rewrite Hg.
  destruct Ht as [-> | ->]; by destruct (resp_candidates resp).
Qed.

Lemma ask_text lower e p resp c t :
  generate e p = Returns resp -> resp_text resp = Some (c :: t) ->
  Main.safe_ask_gemini lower e p = inl (strip (c :: t))
  /\ Part000.safe_ask_gemini e p = strip (c :: t).
Proof.
  intros Hg Ht.
  unfold Main.safe_ask_gemini, Main.ask_gemini, Part000.safe_ask_gemini,
    Part000.ask_gemini.
  by rewrite Hg, Ht.
Qed.

Lemma part_ask_failure e p :
  (forall resp c t,
     generate e p = Returns resp -> resp_text resp <> Some (c :: t)) ->
  Part000.safe_ask_gemini e p = lit "Message sent ✅".
Proof.
  intros H. unfold Part000.safe_ask_gemini, Part000.ask_gemini.
  destruct (generate e p) as [resp | ex]; [|reflexivity].
  destruct (resp_text resp) as [[|c t]|] eqn:Ht; try reflexivity.
  by destruct (H resp c t).
Qed.

(** In [main.py] a response without text and without candidates is not
    replaced by the fallback: the user is sent [str(resp)]. *)
Lemma synthesize_fallback_counterexample :
  Main.safe_ask_gemini ascii_lower (empty_env 1000)
    (IntelligentPrompt "english" (lit "Need help"))
  = inl (lit "candidates=None text=None")
  /\ lit "candidates=None text=None" <> lit "Message sent ✅"
  /\ lit "candidates=None text=None" <> lit "Message sent ✅."
  /\ out (Main.dispatch 1 ascii_lower (text_update 5 (lit "Need help"))
            (empty_env 1000) initial_state)
     = [forward_message 1 5 40; reply_text 5 (lit "💬 Bot is typing…");
        reply_text 5 (lit "candidates=None text=None")].
Proof.
  split; [reflexivity|].
  split; [intros H; vm_compute in H; discriminate H|].
  split; [intros H; vm_compute in H; discriminate H|].
  vm_compute. reflexivity.
Qed.

(** C7, amended. The synthesizer of [part_000] always returns a text to
    its caller: the stripped text of the response when it has a non-empty
    one, and the fallback "Message sent ✅" in every other case (any
    exception, no text, empty text). The synthesizer of [main.py] returns
    the stripped text of the response when it has a non-empty one and the
    fallback "Message sent ✅." when the service raises an exception
    derived from [Exception]; for a response without text it returns the
    first candidate's content, stripped, or, without candidates,
    [str(resp)], not the fallback; an exception of the service that is not
    derived from [Exception] is not caught and leaves the synthesizer, and
    nothing else does. *)
Theorem synthesize_fallback
  (lower : pystr -> pystr) (e : env) (p : prompt) :
  ((forall ex, generate e p = Raises ex ->
      Part000.safe_ask_gemini e p = lit "Message sent ✅")
   /\ (forall resp, generate e p = Returns resp ->
         resp_text resp = None \/ resp_text resp = Some [] ->
         Part000.safe_ask_gemini e p = lit "Message sent ✅")
   /\ (forall resp c t, generate e p = Returns resp ->
         resp_text resp = Some (c :: t) ->
         Part000.safe_ask_gemini e p = strip (c :: t)))
  /\ ((forall ex, generate e p = Raises ex -> exn_is_Exception ex = true ->
         Main.safe_ask_gemini lower e p = inl (lit "Message sent ✅."))
      /\ (forall resp c t, generate e p = Returns resp ->
            resp_text resp = Some (c :: t) ->
            Main.safe_ask_gemini lower e p = inl (strip (c :: t)))
      /\ (forall resp, generate e p = Returns resp ->
            resp_text resp = None \/ resp_text resp = Some [] ->
            Main.safe_ask_gemini lower e p
            = inl match resp_candidates resp with
                  | cand :: _ => strip cand
                  | [] => resp_str resp
                  end)
      /\ (forall ex, generate e p = Raises ex -> exn_is_Exception ex = false ->
            Main.safe_ask_gemini lower e p = inr ex)
      /\ (forall ex, Main.safe_ask_gemini lower e p = inr ex ->
            exn_is_Exception ex = false /\ generate e p = Raises ex)).
Proof.
  split; [split; [|split] | split; [|split; [|split; [|split]]]].
  - intros ex Hg. apply part_ask_failure. intros resp c t. congruence.
  - intros resp Hg Ht. apply part_ask_failure. intros resp' c t Hg'.
    assert (resp' = resp) as -> by congruence.
    destruct Ht as [-> | ->]; discriminate.
  - intros resp c t Hg Ht. by apply (ask_text lower e p resp c t).
  - apply main_ask_exception.
  - intros resp c t Hg Ht. by apply (ask_text lower e p resp c t).
  - apply main_ask_no_text.
  - intros ex Hg Hex. unfold Main.safe_ask_gemini, Main.ask_gemini.
    by rewrite Hg, Hex, Hex.
  - apply main_ask_raises.
Qed.

(** A service that always raises: every synthesized reply is the
    fallback. *)
Lemma synthesize_fallback_witness :
  Part000.safe_ask_gemini (sample_env 1000) (WelcomePrompt (lit "Friend") "english")
  = lit "Message sent ✅"
  /\ Main.safe_ask_gemini ascii_lower (sample_env 1000)
       (IntelligentPrompt "english" (lit "Need help"))
     = inl (lit "Message sent ✅.").
Proof.
  pose proof (synthesize_fallback ascii_lower (sample_env 1000)
    (WelcomePrompt (lit "Friend") "english")) as [(Hp & _) _].
  pose proof (synthesize_fallback ascii_lower (sample_env 1000)
    (IntelligentPrompt "english" (lit "Need help"))) as [_ (Hm & _)].
  split; [exact (Hp _ eq_refl) | exact (Hm _ eq_refl eq_refl)].
Defined.

(** ** The language sniffer *)

Lemma re_search_range lo hi text :
  re_search_class [(lo, hi)] text = true
  <-> exists c, In c text /\ (lo <= c <= hi)%N.
Proof.
  unfold re_search_class. rewrite existsb_exists.
  split; intros (c & Hin & Hc); exists c; (split; [exact Hin|]).
  - simpl in Hc. rewrite orb_false_r in Hc. unfold in_range in Hc.
    apply andb_true_iff in Hc as [H1 H2].
    apply N.leb_le in H1. apply N.leb_le in H2. by split.
  - simpl. rewrite orb_false_r. unfold in_range.
    apply andb_true_iff.
    split; apply N.leb_le; [exact (proj1 Hc) | exact (proj2 Hc)].
Qed.

Lemma re_search_none lo hi text :
  re_search_class [(lo, hi)] text = false
  <-> ~ exists c, In c text /\ (lo <= c <= hi)%N.
Proof.
  rewrite <- re_search_range.
  destruct (re_search_class _ text); split; congruence.
Qed.

(** A text in both scripts: a Devanagari letter, then a Bengali one.
    [main.py] looks for Devanagari first and answers "hindi". *)
Lemma detect_language_counterexample :
  In 2453%N [2325; 2453]%N
  /\ bengali_block 2453
  /\ Main.detect_language [2325; 2453]%N = "hindi"
  /\ "hindi" <> "bengali".
Proof.
  split; [right; left; reflexivity|].
  split; [unfold bengali_block; lia|].
  split; [reflexivity | discriminate].
Qed.

(** C8, amended. Both functions are total and return one of the three
    tags. [main.py]: "hindi" exactly when the text has a code point in the
    Devanagari block, "bengali" exactly when it has none but has one in
    the Bengali block, "english" otherwise (Latin letters or not, the
    empty text included); a text with code points of both blocks is
    "hindi". [part_000]: "bengali" exactly when the text has a code point
    in the Bengali block, "english" otherwise; a text with code points of
    both blocks is "bengali". *)
Theorem detect_language_rule (text : pystr) :
  let has P := exists c, In c text /\ P c in
  ((Main.detect_language text = "hindi" <-> has devanagari)
   /\ (Main.detect_language text = "bengali"
       <-> ~ has devanagari /\ has bengali_block)
   /\ (Main.detect_language text = "english"
       <-> ~ has devanagari /\ ~ has bengali_block))
  /\ ((Part000.detect_language text = "bengali" <-> has bengali_block)
      /\ (Part000.detect_language text = "english" <-> ~ has bengali_block))
  /\ Main.detect_language [] = "english"
  /\ Part000.detect_language [] = "english".
Proof.
  intros has. unfold has, devanagari, bengali_block.
  unfold Main.detect_language, Part000.detect_language.
  pose proof (re_search_range 2304 2431 text) as Hd.
  pose proof (re_search_none 2304 2431 text) as Hd'.
  pose proof (re_search_range 2432 2559 text) as Hb.
  pose proof (re_search_none 2432 2559 text) as Hb'.
  destruct (re_search_class [(2304, 2431)%N] text);
    destruct (re_search_class [(2432, 2559)%N] text);
    destruct (re_search_class [(65, 90)%N; (97, 122)%N] text);
    (repeat split; try reflexivity; try discriminate; try tauto;
     intros; exfalso; tauto).
Qed.

(** ** The greeting branch *)

(** User 5 sends "hi" at 1000 s and again half a second later: the second
    greeting is stopped by the gate, which comes first, and gets no
    welcome. *)
Lemma greeting_branch_counterexample :
  bool_decide (ascii_lower (take 500 (lit "hi")) ∈ Part000.greetings) = true
  /\ Part000.dispatch 1 ascii_lower (text_update 5 (lit "hi"))
       (sample_env (2001 # 2))
       (st (Part000.dispatch 1 ascii_lower (text_update 5 (lit "hi"))
              (sample_env 1000) initial_state))
     = {| st := st (Part000.dispatch 1 ascii_lower (text_update 5 (lit "hi"))
                      (sample_env 1000) initial_state);
          out := [];
          raised := None |}.
Proof. split; vm_compute; reflexivity. Qed.

Lemma strip_fallback : strip (lit "Message sent ✅") = lit "Message sent ✅".
Proof. vm_compute. reflexivity. Qed.

Lemma part_smart_welcome_fallback e name lang ex :
  generate e (WelcomePrompt name lang) = Raises ex ->
  Part000.smart_welcome e name lang = lit "Message sent ✅".
Proof.
  intros Hg. unfold Part000.smart_welcome.
  rewrite part_ask_failure; [apply strip_fallback|].
  intros resp c t. congruence.
Qed.

Lemma part_handle_greeting ADMIN_ID lower u e s :
  let uid := effective_user_id u in
  let ud := context_user_data s uid in
  let text := take 500 (message_text u) in
  lower text ∈ Part000.greetings ->
  ~ (now e - default 0%Q (last_time ud) < 6 # 5)%Q ->
  Part000.handle_message ADMIN_ID lower u e s
  = {| st := {| bot_data := bot_data s;
                user_data := <[uid := set_last_time ud (now e)]> (user_data s) |};
       out := [reply_text (effective_chat_id u)
                 (Part000.smart_welcome e (str_or (first_name u) (lit "Friend"))
                    (Part000.detect_language text))];
       raised := None |}.
Proof.
  intros uid ud text Hg Hgate. unfold Part000.handle_message.
  fold uid. fold ud. rewrite (part_user_spam_passed _ _ Hgate).
  fold text. case_decide; [reflexivity|contradiction].
Qed.

(** C9, amended. In [part_000], a text that is no command and no reply and
    whose first 500 code points, lowered, are one of the eight greetings
    first goes through the cooldown gate. If the gate blocks it, nothing
    is sent and nothing changes. Otherwise the only message sent is the
    welcome of [smart_welcome], in the sender's chat (the fallback when
    the service raises); nothing is forwarded, whatever the transport
    would have answered; [bot_data] is unchanged, so no correlation is
    recorded and a pending notice stays pending; of the sender's data only
    [last_time] changes. *)
Theorem greeting_branch
  (ADMIN_ID : Z) (lower : pystr -> pystr) (u : update) (e : env) (s : state)
  (t : pystr) :
  message u = Text t None ->
  reply_to_message u = None ->
  lower (take 500 t) ∈ Part000.greetings ->
  let uid := effective_user_id u in
  let ud := context_user_data s uid in
  let name := str_or (first_name u) (lit "Friend") in
  let lang := Part000.detect_language (take 500 t) in
  ((now e - default 0%Q (last_time ud) < 6 # 5)%Q ->
   Part000.dispatch ADMIN_ID lower u e s
   = {| st := s; out := []; raised := None |})
  /\ (~ (now e - default 0%Q (last_time ud) < 6 # 5)%Q ->
      Part000.dispatch ADMIN_ID lower u e s
      = {| st := {| bot_data := bot_data s;
                    user_data :=
                      <[uid := {| last_time := Some (now e);
                                  busy_shown := busy_shown ud |}]>
                        (user_data s) |};
           out := [reply_text (effective_chat_id u)
                     (Part000.smart_welcome e name lang)];
           raised := None |})
  /\ (forall ex, generate e (WelcomePrompt name lang) = Raises ex ->
      Part000.smart_welcome e name lang = lit "Message sent ✅").
Proof.
  intros Hm Hr Hg uid ud name lang.
  rewrite (part_dispatch_plain _ _ _ _ _ _ Hm Hr).
  assert (Ht : message_text u = t) by (unfold message_text; by rewrite Hm).
  split; [|split].
  - intros Hb. by apply part_handle_blocked.
  - intros Hgate.
    rewrite part_handle_greeting; rewrite ?Ht; done.
  - apply part_smart_welcome_fallback.
Qed.

(** User 5 sends "Hi" as a first message, while the service is down. *)
Lemma greeting_branch_witness :
  ascii_lower (take 500 (lit "Hi")) ∈ Part000.greetings
  /\ out (Part000.dispatch 1 ascii_lower (text_update 5 (lit "Hi"))
            (sample_env 1000) initial_state)
     = [reply_text 5 (lit "Message sent ✅")].
Proof.
  assert (Hg : ascii_lower (take 500 (lit "Hi")) ∈ Part000.greetings)
    by (apply (bool_decide_eq_true_1 _); vm_compute; reflexivity).
  pose proof (greeting_branch 1 ascii_lower (text_update 5 (lit "Hi"))
    (sample_env 1000) initial_state (lit "Hi") eq_refl eq_refl Hg)
    as (_ & Hpass & Hfb).
  split; [exact Hg|].
  rewrite Hpass; [|intros H; vm_compute in H; discriminate H].
  cbn [out]. rewrite (Hfb _ eq_refl). reflexivity.
Defined.

(** ** Replies of other users *)

(** User 5, who is not the admin (user 1), sends [/away] as a reply to
    message 77: the command handler, registered before the reply handler,
    takes it and answers. *)
Lemma non_admin_reply_swallowed_counterexample :
  effective_user_id (reply_update 5 (lit "/away") (Some "away") 77) <> 1
  /\ reply_to_message (reply_update 5 (lit "/away") (Some "away") 77) = Some 77
  /\ out (Main.dispatch 1 ascii_lower
            (reply_update 5 (lit "/away") (Some "away") 77)
            (sample_env 1000) initial_state)
     = [reply_text 5 (lit "❌ Not allowed.")]
  /\ out (Part000.dispatch 1 ascii_lower
            (reply_update 5 (lit "/away") (Some "away") 77)
            (sample_env 1000) initial_state)
     = [reply_text 5 (lit "❌ Not allowed.")].
Proof.
  split; [simpl; lia|]. split; [reflexivity|]. split; reflexivity.
Qed.

(** C10, amended. In both scripts, a text that is a reply to another
    message, is not one of the commands [/start], [/available], [/away]
    (which have their own handlers, registered before, and are answered),
    and comes from a user who is not the admin, is taken by the reply
    handler, which returns at once: nothing is forwarded, nothing is sent,
    no exception, and the stores (correlation map, admin state, the
    sender's data) are unchanged. *)
Theorem non_admin_reply_swallowed
  (ADMIN_ID : Z) (lower : pystr -> pystr) (u : update) (e : env) (s : state)
  (t : pystr) (cmd : option string) (replied : Z) :
  effective_user_id u <> ADMIN_ID ->
  message u = Text t cmd ->
  reply_to_message u = Some replied ->
  cmd <> Some "start" -> cmd <> Some "available" -> cmd <> Some "away" ->
  Main.dispatch ADMIN_ID lower u e s = {| st := s; out := []; raised := None |}
  /\ Part000.dispatch ADMIN_ID lower u e s
     = {| st := s; out := []; raised := None |}.
Proof.
  intros Hu Hm Hr H1 H2 H3.
  unfold Main.dispatch, Part000.dispatch, Main.admin_reply_handler,
    Part000.admin_reply_handler.
  rewrite Hm, Hr.
  repeat case_decide; try contradiction; try done.
  all: exfalso; match goal with H : ~ is_Some _ |- _ => apply H; eauto end.
Qed.

(** User 5 answers a message of the bot with "thanks". *)
Lemma non_admin_reply_swallowed_witness :
  effective_user_id (reply_update 5 (lit "thanks") None 77) <> 1
  /\ Main.dispatch 1 ascii_lower (reply_update 5 (lit "thanks") None 77)
       (sample_env 1000) initial_state
     = {| st := initial_state; out := []; raised := None |}.
Proof.
  assert (Hu : effective_user_id (reply_update 5 (lit "thanks") None 77) <> 1)
    by (simpl; lia).
  split; [exact Hu|].
  refine (proj1 (non_admin_reply_swallowed 1 ascii_lower
    (reply_update 5 (lit "thanks") None 77) (sample_env 1000) initial_state
    (lit "thanks") None 77 Hu eq_refl eq_refl _ _ _)); discriminate.
Defined.

(** * Further properties of the handlers *)

(** ** Which handler runs *)

Lemma main_dispatch_cases ADMIN_ID lower u e s :
  Main.dispatch ADMIN_ID lower u e s = Main.handle_message ADMIN_ID lower u e s
  \/ user_data (st (Main.dispatch ADMIN_ID lower u e s)) = user_data s.
Proof.
  unfold Main.dispatch, Main.start_cmd, Main.available_cmd, Main.away_cmd,
    Main.admin_reply_handler, done_with, set_bot_data.
  repeat first [case_decide | case_match]; simpl; auto.
Qed.

Lemma part_dispatch_cases ADMIN_ID lower u e s :
  Part000.dispatch ADMIN_ID lower u e s
  = Part000.handle_message ADMIN_ID lower u e s
  \/ user_data (st (Part000.dispatch ADMIN_ID lower u e s)) = user_data s.
Proof.
  unfold Part000.dispatch, Part000.start_cmd, Part000.available_cmd,
    Part000.away_cmd, Part000.admin_reply_handler, Part000.photo_handler,
    Part000.silent_forward, done_with, set_bot_data.
  repeat first [case_decide | case_match]; simpl; auto.
Qed.

(** ** Users do not interfere *)

Lemma step_other_user step u e s uid :
  touches_sender_only step ->
  effective_user_id u <> uid ->
  user_data (st (step u e s)) !! uid = user_data s !! uid.
Proof.
  intros Hstep Hne.
  destruct (Hstep u e s) as [-> | (ud' & -> & _)]; [done|].
  by rewrite lookup_insert_ne.
Qed.

Lemma run_other_users step evs s uid :
  touches_sender_only step ->
  Forall (fun ev => effective_user_id (fst ev) <> uid) evs ->
  user_data (run step s evs) !! uid = user_data s !! uid.
Proof.
  intros Hstep H. revert s.
  induction H as [|[u e] evs Hne _ IH]; intros s; [done|].
  unfold run; simpl. change (fold_left _ evs ?a) with (run step a evs).
  rewrite IH. by apply step_other_user.
Qed.

(** X1. In both scripts, whatever happens in a run of updates none of
    which comes from a given user leaves what is stored for that user (time
    stamp and [busy_shown]) exactly as it was: the cooldown and the
    first-time logic of one user are never affected by the others or by
    the admin. *)
Theorem other_users_untouched
  (ADMIN_ID : Z) (lower : pystr -> pystr) (uid : Z) (s : state)
  (evs : list (update * env)) :
  Forall (fun ev => effective_user_id (fst ev) <> uid) evs ->
  user_data (run (Main.dispatch ADMIN_ID lower) s evs) !! uid
  = user_data s !! uid
  /\ user_data (run (Part000.dispatch ADMIN_ID lower) s evs) !! uid
     = user_data s !! uid.
Proof.
  intros H. split; apply run_other_users; try done.
  - apply main_dispatch_user_data.
  - apply part_dispatch_user_data.
Qed.

(** User 5 has written; then the admin and user 6 are active. *)
Lemma other_users_untouched_witness :
  user_data
    (run (Part000.dispatch 1 ascii_lower)
       (st (Part000.dispatch 1 ascii_lower (text_update 5 (lit "Need help"))
              (sample_env 1000) initial_state))
       [(command_update 1 "away", sample_env 1001);
        (text_update 6 (lit "hello"), sample_env 1002)]) !! 5
  = user_data
      (st (Part000.dispatch 1 ascii_lower (text_update 5 (lit "Need help"))
             (sample_env 1000) initial_state)) !! 5.
Proof.
  refine (proj2 (other_users_untouched 1 ascii_lower 5 _
    [(command_update 1 "away", sample_env 1001);
     (text_update 6 (lit "hello"), sample_env 1002)] _)).
  repeat constructor; simpl; lia.
Defined.

(** ** Accepted texts are spaced *)

Lemma main_dispatch_last_time ADMIN_ID lower u e s uid :
  let s' := st (Main.dispatch ADMIN_ID lower u e s) in
  last_time (context_user_data s' uid) = last_time (context_user_data s uid)
  \/ (effective_user_id u = uid
      /\ last_time (context_user_data s' uid) = Some (now e)
      /\ ~ (now e - default 0%Q (last_time (context_user_data s uid))
            < 3 # 2)%Q).
Proof.
  intros s'. subst s'.
  destruct (main_dispatch_cases ADMIN_ID lower u e s) as [-> | Hu];
    [|left; unfold context_user_data; by rewrite Hu].
  destruct (Qltb (now e - default 0%Q (last_time
    (context_user_data s (effective_user_id u)))) (3 # 2)) eqn:Hq.
  { left. unfold Main.handle_message, Main.user_spam. by rewrite Hq. }
  apply Qltb_nlt in Hq.
  destruct (main_handle_passed ADMIN_ID lower u e s Hq) as (ud' & Hm & Ht & _).
  destruct (decide (effective_user_id u = uid)) as [<- | Hne].
  - right. split; [done|]. split; [|done].
    by rewrite (last_time_after _ _ _ _ Hm).
  - left. unfold context_user_data. rewrite Hm. by rewrite lookup_insert_ne.
Qed.

Lemma part_dispatch_last_time ADMIN_ID lower u e s uid :
  let s' := st (Part000.dispatch ADMIN_ID lower u e s) in
  last_time (context_user_data s' uid) = last_time (context_user_data s uid)
  \/ (effective_user_id u = uid
      /\ last_time (context_user_data s' uid) = Some (now e)
      /\ ~ (now e - default 0%Q (last_time (context_user_data s uid))
            < 6 # 5)%Q).
Proof.
  intros s'. subst s'.
  destruct (part_dispatch_cases ADMIN_ID lower u e s) as [-> | Hu];
    [|left; unfold context_user_data; by rewrite Hu].
  destruct (Qltb (now e - default 0%Q (last_time
    (context_user_data s (effective_user_id u)))) (6 # 5)) eqn:Hq.
  { left. unfold Part000.handle_message, Part000.user_spam. by rewrite Hq. }
  apply Qltb_nlt in Hq.
  destruct (part_handle_passed ADMIN_ID lower u e s Hq) as (ud' & Hm & Ht & _).
  destruct (decide (effective_user_id u = uid)) as [<- | Hne].
  - right. split; [done|]. split; [|done].
    by rewrite (last_time_after _ _ _ _ Hm).
  - left. unfold context_user_data. rewrite Hm. by rewrite lookup_insert_ne.
Qed.

(** X2. In both scripts, whenever an update changes the time stamp stored
    for a user, the update is a text of that user, the new stamp is the
    clock's value, and at least the cooldown interval (1.5 s in [main.py],
    1.2 s in [part_000]) has passed since the previous stamp (since 0 when
    there was none). Commands, admin replies and photos never move it. *)
Theorem accepted_texts_are_spaced
  (ADMIN_ID : Z) (lower : pystr -> pystr) (u : update) (e : env) (s : state)
  (uid : Z) :
  let before := last_time (context_user_data s uid) in
  let m := st (Main.dispatch ADMIN_ID lower u e s) in
  let p := st (Part000.dispatch ADMIN_ID lower u e s) in
  (last_time (context_user_data m uid) <> before ->
   effective_user_id u = uid
   /\ last_time (context_user_data m uid) = Some (now e)
   /\ (3 # 2 <= now e - default 0%Q before)%Q
   /\ is_plain_text u)
  /\ (last_time (context_user_data p uid) <> before ->
      effective_user_id u = uid
      /\ last_time (context_user_data p uid) = Some (now e)
      /\ (6 # 5 <= now e - default 0%Q before)%Q
      /\ is_plain_text u).
Proof.
  intros before m p. split; intros Hch.
  - destruct (main_dispatch_last_time ADMIN_ID lower u e s uid)
      as [Heq | (Hu & Ht & Hq)]; [contradiction|].
    repeat split; try done.
    + apply Qnot_lt_le. exact Hq.
    + destruct (reply_to_message u) as [r|] eqn:Hr.
      * exfalso. apply Hch. unfold m, before, context_user_data.
        f_equal. f_equal. f_equal.
        unfold Main.dispatch, Main.start_cmd, Main.available_cmd,
          Main.away_cmd, Main.admin_reply_handler, done_with, set_bot_data.
        rewrite Hr.
        repeat first [case_decide | case_match]; simpl; try done.
        all: exfalso;
          match goal with H : ~ is_Some _ |- _ => apply H; eauto end.
      * done.
    + destruct (message u) as [t [c|]|] eqn:Hm; [| by eexists |];
        exfalso; apply Hch; unfold m, before, context_user_data;
        f_equal; f_equal; f_equal;
        unfold Main.dispatch, Main.start_cmd, Main.available_cmd,
          Main.away_cmd, Main.admin_reply_handler, done_with, set_bot_data;
        rewrite Hm;
        repeat first [case_decide | case_match]; simpl; done.
  - destruct (part_dispatch_last_time ADMIN_ID lower u e s uid)
      as [Heq | (Hu & Ht & Hq)]; [contradiction|].
    repeat split; try done.
    + apply Qnot_lt_le. exact Hq.
    + destruct (reply_to_message u) as [r|] eqn:Hr.
      * exfalso. apply Hch. unfold p, before, context_user_data.
        f_equal. f_equal. f_equal.
        unfold Part000.dispatch, Part000.start_cmd, Part000.available_cmd,
          Part000.away_cmd, Part000.admin_reply_handler,
          Part000.photo_handler, Part000.silent_forward, done_with,
          set_bot_data.
        rewrite Hr.
        repeat first [case_decide | case_match]; simpl; try done.
        all: exfalso;
          match goal with H : ~ is_Some _ |- _ => apply H; eauto end.
      * done.
    + destruct (message u) as [t [c|]|] eqn:Hm; [| by eexists |];
        exfalso; apply Hch; unfold p, before, context_user_data;
        f_equal; f_equal; f_equal;
        unfold Part000.dispatch, Part000.start_cmd, Part000.available_cmd,
          Part000.away_cmd, Part000.admin_reply_handler,
          Part000.photo_handler, Part000.silent_forward, done_with,
          set_bot_data;
        rewrite Hm;
        repeat first [case_decide | case_match]; simpl; done.
Qed.

(** ** Forwards and the correlation map *)

Ltac forward_cases :=
  unfold_handlers; unfold Main.type_animation, Part000.type_animation;
  repeat first [case_decide | case_match]; simplify_eq/=;
  intros Hin; repeat (destruct Hin as [Hin | Hin]); try discriminate Hin;
  try contradiction; simplify_eq;
  (split; [reflexivity|]; split; [reflexivity|]; split; [reflexivity|]);
  eexists; (split; [reflexivity|]); unfold resolve; simpl;
  apply lookup_insert_eq.

Lemma main_forward_recorded ADMIN_ID lower u e s a b c :
  In (forward_message a b c) (out (Main.dispatch ADMIN_ID lower u e s)) ->
  a = ADMIN_ID /\ b = effective_chat_id u /\ c = message_id u
  /\ exists fwd, forward_result e = Some fwd
       /\ resolve (bot_data (st (Main.dispatch ADMIN_ID lower u e s))) fwd
          = Some (effective_chat_id u).
Proof. forward_cases. Qed.

Lemma part_forward_recorded ADMIN_ID lower u e s a b c :
  In (forward_message a b c) (out (Part000.dispatch ADMIN_ID lower u e s)) ->
  a = ADMIN_ID /\ b = effective_chat_id u /\ c = message_id u
  /\ exists fwd, forward_result e = Some fwd
       /\ resolve (bot_data (st (Part000.dispatch ADMIN_ID lower u e s))) fwd
          = Some (effective_chat_id u).
Proof. forward_cases. Qed.

(** X3. In both scripts, every forward the bot performs is a forward of
    the handled message from the sender's chat to the admin, and when the
    handler ends the identifier the transport returned for it resolves to
    the sender's chat; this holds for texts and, in [part_000], photos. *)
Theorem every_forward_is_recorded
  (ADMIN_ID : Z) (lower : pystr -> pystr) (u : update) (e : env) (s : state)
  (a b c : Z) :
  (In (forward_message a b c) (out (Main.dispatch ADMIN_ID lower u e s)) ->
   a = ADMIN_ID /\ b = effective_chat_id u /\ c = message_id u
   /\ exists fwd, forward_result e = Some fwd
        /\ resolve (bot_data (st (Main.dispatch ADMIN_ID lower u e s))) fwd
           = Some (effective_chat_id u))
  /\ (In (forward_message a b c) (out (Part000.dispatch ADMIN_ID lower u e s)) ->
      a = ADMIN_ID /\ b = effective_chat_id u /\ c = message_id u
      /\ exists fwd, forward_result e = Some fwd
           /\ resolve (bot_data (st (Part000.dispatch ADMIN_ID lower u e s))) fwd
              = Some (effective_chat_id u)).
Proof.
  split; [apply main_forward_recorded | apply part_forward_recorded].
Qed.

(** A photo of user 5, forwarded as message 900. *)
Lemma every_forward_is_recorded_witness :
  In (forward_message 1 5 40)
    (out (Part000.dispatch 1 ascii_lower
            {| effective_user_id := 5; first_name := None;
               effective_chat_id := 5; message_id := 40; message := Photo;
               reply_to_message := None |}
            (sample_env 1000) initial_state))
  /\ exists fwd, forward_result (sample_env 1000) = Some fwd
       /\ resolve
            (bot_data
               (st (Part000.dispatch 1 ascii_lower
                      {| effective_user_id := 5; first_name := None;
                         effective_chat_id := 5; message_id := 40;
                         message := Photo; reply_to_message := None |}
                      (sample_env 1000) initial_state))) fwd
          = Some 5.
Proof.
  assert (Hin : In (forward_message 1 5 40)
    (out (Part000.dispatch 1 ascii_lower
            {| effective_user_id := 5; first_name := None;
               effective_chat_id := 5; message_id := 40; message := Photo;
               reply_to_message := None |}
            (sample_env 1000) initial_state))) by (left; reflexivity).
  split; [exact Hin|].
  exact (proj2 (proj2 (proj2 (proj2
    (every_forward_is_recorded 1 ascii_lower _ (sample_env 1000)
       initial_state 1 5 40) Hin)))).
Defined.

Lemma run_cons step s u e evs :
  run step s ((u, e) :: evs) = run step (st (step u e s)) evs.
Proof. reflexivity. Qed.

(** A recorded identifier keeps its chat as long as no forward returns
    the same identifier again. *)
Lemma run_keeps_recorded step x c evs s :
  (forall u e s,
     forwarded_map (bot_data (st (step u e s))) = forwarded_map (bot_data s)
     \/ exists fwd, forward_result e = Some fwd
        /\ forwarded_map (bot_data (st (step u e s)))
           = forwarded_map (record_forward (bot_data s) fwd (effective_chat_id u))) ->
  Forall (fun ev => forward_result (snd ev) <> Some x) evs ->
  resolve (bot_data s) x = Some c ->
  resolve (bot_data (run step s evs)) x = Some c.
Proof.
  intros Hstep H. revert s. induction H as [|[u e] evs Hx _ IH]; intros s Hs.
  - exact Hs.
  - rewrite run_cons. apply IH.
    destruct (Hstep u e s) as [Heq | (fwd & Hf & Heq)];
      rewrite (resolve_forwarded_map _ _ x Heq); [exact Hs|].
    rewrite resolve_record_ne; [exact Hs|]. simpl in Hx. congruence.
Qed.

(** Entries are never removed. *)
Lemma run_stays_recorded step x evs s :
  (forall u e s,
     forwarded_map (bot_data (st (step u e s))) = forwarded_map (bot_data s)
     \/ exists fwd, forward_result e = Some fwd
        /\ forwarded_map (bot_data (st (step u e s)))
           = forwarded_map (record_forward (bot_data s) fwd (effective_chat_id u))) ->
  is_Some (resolve (bot_data s) x) ->
  is_Some (resolve (bot_data (run step s evs)) x).
Proof.
  intros Hstep. revert s. induction evs as [|[u e] evs IH]; intros s Hs.
  - exact Hs.
  - rewrite run_cons. apply IH.
    destruct (Hstep u e s) as [Heq | (fwd & Hf & Heq)];
      rewrite (resolve_forwarded_map _ _ x Heq); [exact Hs|].
    destruct (decide (fwd = x)) as [-> | Hne].
    + rewrite resolve_record_eq. eauto.
    + by rewrite resolve_record_ne.
Qed.

(** X4. In both scripts the correlation map only grows: over every run
    of the router an identifier that resolves to a chat still resolves to
    some chat afterwards, and to the same chat when no forward of the run
    returned that identifier again. No handler deletes an entry. *)
Theorem correlation_entries_persist
  (ADMIN_ID : Z) (lower : pystr -> pystr) (s : state) (x c : Z)
  (evs : list (update * env)) :
  resolve (bot_data s) x = Some c ->
  (is_Some (resolve (bot_data (run (Main.dispatch ADMIN_ID lower) s evs)) x)
   /\ is_Some
        (resolve (bot_data (run (Part000.dispatch ADMIN_ID lower) s evs)) x))
  /\ (Forall (fun ev => forward_result (snd ev) <> Some x) evs ->
      resolve (bot_data (run (Main.dispatch ADMIN_ID lower) s evs)) x = Some c
      /\ resolve (bot_data (run (Part000.dispatch ADMIN_ID lower) s evs)) x
         = Some c).
Proof.
  intros Hs. split; [split|intros Hevs; split].
  - apply run_stays_recorded; [|rewrite Hs; eauto].
    intros; apply main_dispatch_forwarded_map.
  - apply run_stays_recorded; [|rewrite Hs; eauto].
    intros; apply part_dispatch_forwarded_map.
  - apply run_keeps_recorded; try done.
    intros; apply main_dispatch_forwarded_map.
  - apply run_keeps_recorded; try done.
    intros; apply part_dispatch_forwarded_map.
Qed.

Lemma main_dispatch_reply ADMIN_ID lower u e s t cmd r :
  message u = Text t cmd -> reply_to_message u = Some r ->
  cmd <> Some "start" -> cmd <> Some "available" -> cmd <> Some "away" ->
  Main.dispatch ADMIN_ID lower u e s = Main.admin_reply_handler ADMIN_ID u e s.
Proof.
  intros Hm Hr H1 H2 H3. unfold Main.dispatch. rewrite Hm, Hr.
  repeat case_decide; try contradiction; try done.
  all: exfalso; match goal with H : ~ is_Some _ |- _ => apply H; eauto end.
Qed.

Lemma part_dispatch_reply ADMIN_ID lower u e s t cmd r :
  message u = Text t cmd -> reply_to_message u = Some r ->
  cmd <> Some "start" -> cmd <> Some "available" -> cmd <> Some "away" ->
  Part000.dispatch ADMIN_ID lower u e s
  = Part000.admin_reply_handler ADMIN_ID u e s.
Proof.
  intros Hm Hr H1 H2 H3. unfold Part000.dispatch. rewrite Hm, Hr.
  repeat case_decide; try contradiction; try done.
  all: exfalso; match goal with H : ~ is_Some _ |- _ => apply H; eauto end.
Qed.

Lemma main_reply_send_fails ADMIN_ID u e s x c ex :
  effective_user_id u = ADMIN_ID -> reply_to_message u = Some x ->
  resolve (bot_data s) x = Some c -> c <> 0 -> send_result e = Some ex ->
  Main.admin_reply_handler ADMIN_ID u e s
  = {| st := s; out := []; raised := Some ex |}.
Proof.
  intros Hu Hr Hx Hc He. unfold Main.admin_reply_handler.
  case_decide; [contradiction|]. rewrite Hr, Hx, He. simpl.
  destruct (Z.eqb_spec c 0); [contradiction|reflexivity].
Qed.

Lemma part_reply_send_fails ADMIN_ID u e s x c ex :
  effective_user_id u = ADMIN_ID -> reply_to_message u = Some x ->
  resolve (bot_data s) x = Some c -> c <> 0 -> send_result e = Some ex ->
  Part000.admin_reply_handler ADMIN_ID u e s
  = {| st := s; out := []; raised := Some ex |}.
Proof.
  intros Hu Hr Hx Hc He. unfold Part000.admin_reply_handler.
  case_decide; [contradiction|]. rewrite Hr, Hx, He. simpl.
  destruct (Z.eqb_spec c 0); [contradiction|reflexivity].
Qed.

(** X5. In both scripts: a message of a user was forwarded, the transport
    returning [fwd]; any updates follow, none of whose forwards returns
    [fwd] again; then the admin replies to message [fwd] with a text that
    is not one of the three commands, and the user's chat identifier is not
    0. The handler resolves [fwd] to the user's chat and calls
    [send_message] for that chat. If the call returns, the calls made are
    that send (the admin's text behind the prefix "Admin: " in [main.py],
    as it is in [part_000]) and then the acknowledgement to the admin. If
    the call raises, the exception leaves the handler: nothing is sent and
    the admin gets no acknowledgement. The stores are unchanged either
    way. *)
Theorem reply_reaches_sender
  (ADMIN_ID : Z) (lower : pystr -> pystr) (u ua : update) (e ea : env)
  (s : state) (evs : list (update * env)) (fwd : Z) (t : pystr)
  (cmd : option string) :
  forward_result e = Some fwd ->
  Forall (fun ev => forward_result (snd ev) <> Some fwd) evs ->
  effective_chat_id u <> 0 ->
  effective_user_id ua = ADMIN_ID ->
  message ua = Text t cmd ->
  reply_to_message ua = Some fwd ->
  cmd <> Some "start" -> cmd <> Some "available" -> cmd <> Some "away" ->
  let m := run (Main.dispatch ADMIN_ID lower)
             (st (Main.dispatch ADMIN_ID lower u e s)) evs in
  let p := run (Part000.dispatch ADMIN_ID lower)
             (st (Part000.dispatch ADMIN_ID lower u e s)) evs in
  (In (forward_message ADMIN_ID (effective_chat_id u) (message_id u))
      (out (Main.dispatch ADMIN_ID lower u e s)) ->
   st (Main.dispatch ADMIN_ID lower ua ea m) = m
   /\ (send_result ea = None ->
       out (Main.dispatch ADMIN_ID lower ua ea m)
       = [send_message (effective_chat_id u) (lit "💬 Admin: " ++ t);
          reply_text (effective_chat_id ua) (lit "✅ Sent to user.")])
   /\ (forall ex, send_result ea = Some ex ->
       out (Main.dispatch ADMIN_ID lower ua ea m) = []
       /\ raised (Main.dispatch ADMIN_ID lower ua ea m) = Some ex))
  /\ (In (forward_message ADMIN_ID (effective_chat_id u) (message_id u))
         (out (Part000.dispatch ADMIN_ID lower u e s)) ->
      st (Part000.dispatch ADMIN_ID lower ua ea p) = p
      /\ (send_result ea = None ->
          out (Part000.dispatch ADMIN_ID lower ua ea p)
          = [send_message (effective_chat_id u) t;
             reply_text (effective_chat_id ua) (lit "Message sent ✅")])
      /\ (forall ex, send_result ea = Some ex ->
          out (Part000.dispatch ADMIN_ID lower ua ea p) = []
          /\ raised (Part000.dispatch ADMIN_ID lower ua ea p) = Some ex)).
Proof.
  intros Hf Hevs Hc Hua Hm Hr H1 H2 H3 m p.
  assert (Ht : message_text ua = t) by (unfold message_text; by rewrite Hm).
  split; intros Hin.
  - destruct (main_forward_recorded _ _ _ _ _ _ _ _ Hin)
      as (_ & _ & _ & fwd' & Hf' & Hres).
    assert (fwd' = fwd) as -> by congruence.
    assert (Hm' : resolve (bot_data m) fwd = Some (effective_chat_id u)).
    { apply run_keeps_recorded; try done.
      intros; apply main_dispatch_forwarded_map. }
    rewrite (main_dispatch_reply _ _ _ _ _ _ _ _ Hm Hr H1 H2 H3).
    split; [|split].
    + destruct (send_result ea) as [ex|] eqn:He.
      * by rewrite (main_reply_send_fails _ _ _ _ _ _ ex Hua Hr Hm' Hc He).
      * by rewrite (main_reply_found _ _ _ _ _ _ Hua Hr Hm' Hc He).
    + intros He.
      rewrite (main_reply_found _ _ _ _ _ _ Hua Hr Hm' Hc He).
      by rewrite Ht.
    + intros ex He.
      by rewrite (main_reply_send_fails _ _ _ _ _ _ ex Hua Hr Hm' Hc He).
  - destruct (part_forward_recorded _ _ _ _ _ _ _ _ Hin)
      as (_ & _ & _ & fwd' & Hf' & Hres).
    assert (fwd' = fwd) as -> by congruence.
    assert (Hp' : resolve (bot_data p) fwd = Some (effective_chat_id u)).
    { apply run_keeps_recorded; try done.
      intros; apply part_dispatch_forwarded_map. }
    rewrite (part_dispatch_reply _ _ _ _ _ _ _ _ Hm Hr H1 H2 H3).
    split; [|split].
    + destruct (send_result ea) as [ex|] eqn:He.
      * by rewrite (part_reply_send_fails _ _ _ _ _ _ ex Hua Hr Hp' Hc He).
      * by rewrite (part_reply_found _ _ _ _ _ _ Hua Hr Hp' Hc He).
    + intros He.
      rewrite (part_reply_found _ _ _ _ _ _ Hua Hr Hp' Hc He).
      by rewrite Ht.
    + intros ex He.
      by rewrite (part_reply_send_fails _ _ _ _ _ _ ex Hua Hr Hp' Hc He).
Qed.

(** User 5's text is forwarded as 900; user 6 writes (forward 901); the
    admin (user 1) then replies to 900 and the send goes through. *)
Lemma reply_reaches_sender_witness :
  In (forward_message 1 5 40)
    (out (Main.dispatch 1 ascii_lower (text_update 5 (lit "Need help"))
            (sample_env 1000) initial_state))
  /\ out (Main.dispatch 1 ascii_lower (reply_update 1 (lit "On it") None 900)
            (sample_env 1100)
            (run (Main.dispatch 1 ascii_lower)
               (st (Main.dispatch 1 ascii_lower
                      (text_update 5 (lit "Need help")) (sample_env 1000)
                      initial_state))
               [(text_update 6 (lit "hello"),
                 with_forward_result (sample_env 1050) (Some 901))]))
     = [send_message 5 (lit "💬 Admin: " ++ lit "On it");
        reply_text 1 (lit "✅ Sent to user.")].
Proof.
  assert (Hin : In (forward_message 1 5 40)
    (out (Main.dispatch 1 ascii_lower (text_update 5 (lit "Need help"))
            (sample_env 1000) initial_state))) by (left; reflexivity).
  split; [exact Hin|].
  refine (proj1 (proj2 (proj1
    (reply_reaches_sender 1 ascii_lower (text_update 5 (lit "Need help"))
       (reply_update 1 (lit "On it") None 900) (sample_env 1000)
       (sample_env 1100) initial_state
       [(text_update 6 (lit "hello"),
         with_forward_result (sample_env 1050) (Some 901))]
       900 (lit "On it") None eq_refl _ _ eq_refl eq_refl eq_refl _ _ _) Hin))
    eq_refl);
    try discriminate.
  repeat constructor. simpl. discriminate.
Defined.

(** ** The admin state *)

Ltac admin_state_cases Hns :=
  handler_cases;
  first [ split; [reflexivity | by auto]
        | exfalso; apply Hns; split; [lia | eauto] ].

Lemma main_dispatch_admin_state ADMIN_ID lower u e s :
  ~ is_setter ADMIN_ID u ->
  admin_available (bot_data (st (Main.dispatch ADMIN_ID lower u e s)))
  = admin_available (bot_data s)
  /\ (admin_status_changed (bot_data (st (Main.dispatch ADMIN_ID lower u e s)))
      = admin_status_changed (bot_data s)
      \/ admin_status_changed
           (bot_data (st (Main.dispatch ADMIN_ID lower u e s))) = None).
Proof. intros Hns. admin_state_cases Hns. Qed.

Lemma part_dispatch_admin_state ADMIN_ID lower u e s :
  ~ is_setter ADMIN_ID u ->
  admin_available (bot_data (st (Part000.dispatch ADMIN_ID lower u e s)))
  = admin_available (bot_data s)
  /\ (admin_status_changed
        (bot_data (st (Part000.dispatch ADMIN_ID lower u e s)))
      = admin_status_changed (bot_data s)
      \/ admin_status_changed
           (bot_data (st (Part000.dispatch ADMIN_ID lower u e s))) = None).
Proof. intros Hns. admin_state_cases Hns. Qed.

Lemma run_admin_state step (is_set : update -> Prop) evs s :
  (forall u e s, ~ is_set u ->
     admin_available (bot_data (st (step u e s))) = admin_available (bot_data s)
     /\ (admin_status_changed (bot_data (st (step u e s)))
         = admin_status_changed (bot_data s)
         \/ admin_status_changed (bot_data (st (step u e s))) = None)) ->
  Forall (fun ev => ~ is_set (fst ev)) evs ->
  admin_available (bot_data (run step s evs)) = admin_available (bot_data s)
  /\ (admin_status_changed (bot_data s) = None ->
      admin_status_changed (bot_data (run step s evs)) = None).
Proof.
  intros Hstep H. revert s. induction H as [|[u e] evs Hu _ IH]; intros s.
  - by split.
  - rewrite run_cons. destruct (IH (st (step u e s))) as [IH1 IH2].
    destruct (Hstep u e s Hu) as [Ha Hc].
    split; [congruence|]. intros Hn. apply IH2.
    destruct Hc as [-> | ->]; done.
Qed.

(** X6. In both scripts, over a run that contains no [/available] and no
    [/away] of the admin, the availability flag keeps its value, and when
    no status notice is pending at the start none is pending at the end:
    texts, photos, replies, [/start] and the commands of other users never
    change the admin's availability and never create a notice. *)
Theorem admin_state_changes_only_by_setters
  (ADMIN_ID : Z) (lower : pystr -> pystr) (s : state)
  (evs : list (update * env)) :
  Forall (fun ev => ~ is_setter ADMIN_ID (fst ev)) evs ->
  (admin_available (bot_data (run (Main.dispatch ADMIN_ID lower) s evs))
   = admin_available (bot_data s)
   /\ (admin_status_changed (bot_data s) = None ->
       admin_status_changed
         (bot_data (run (Main.dispatch ADMIN_ID lower) s evs)) = None))
  /\ (admin_available (bot_data (run (Part000.dispatch ADMIN_ID lower) s evs))
      = admin_available (bot_data s)
      /\ (admin_status_changed (bot_data s) = None ->
          admin_status_changed
            (bot_data (run (Part000.dispatch ADMIN_ID lower) s evs)) = None)).
Proof.
  intros H. split.
  - apply (run_admin_state _ (is_setter ADMIN_ID)); [|exact H].
    intros; by apply main_dispatch_admin_state.
  - apply (run_admin_state _ (is_setter ADMIN_ID)); [|exact H].
    intros; by apply part_dispatch_admin_state.
Qed.

(** User 5 tries [/available]; user 6 writes. The admin is user 1. *)
Lemma admin_state_changes_only_by_setters_witness :
  admin_available
    (bot_data
       (run (Main.dispatch 1 ascii_lower) initial_state
          [(command_update 5 "available", sample_env 1000);
           (text_update 6 (lit "hello"), sample_env 1001)]))
  = admin_available (bot_data initial_state).
Proof.
  refine (proj1 (proj1 (admin_state_changes_only_by_setters 1 ascii_lower
    initial_state
    [(command_update 5 "available", sample_env 1000);
     (text_update 6 (lit "hello"), sample_env 1001)] _))).
  repeat constructor; intros [Hu _]; simpl in Hu; lia.
Defined.

(** X7. In both scripts an [/available] or [/away] of the admin
    overwrites whatever an earlier setter command left: the state after two
    setter commands in a row is the state after the second alone, whoever
    sent the first. A notice that was pending and not yet read is replaced
    and is never sent. *)
Theorem later_setter_wins
  (ADMIN_ID : Z) (u1 u2 : update) (s : state) :
  effective_user_id u2 = ADMIN_ID ->
  let m_av := st (Main.available_cmd ADMIN_ID u1 s) in
  let m_aw := st (Main.away_cmd ADMIN_ID u1 s) in
  let p_av := st (Part000.available_cmd ADMIN_ID u1 s) in
  let p_aw := st (Part000.away_cmd ADMIN_ID u1 s) in
  (st (Main.away_cmd ADMIN_ID u2 m_av) = st (Main.away_cmd ADMIN_ID u2 s)
   /\ st (Main.available_cmd ADMIN_ID u2 m_aw)
      = st (Main.available_cmd ADMIN_ID u2 s)
   /\ st (Main.away_cmd ADMIN_ID u2 m_aw) = st (Main.away_cmd ADMIN_ID u2 s)
   /\ fst (Main.consume_pending_notice
             (bot_data (st (Main.away_cmd ADMIN_ID u2 m_av))))
      = Some Main.AWAY_NOTICE)
  /\ (st (Part000.away_cmd ADMIN_ID u2 p_av)
      = st (Part000.away_cmd ADMIN_ID u2 s)
      /\ st (Part000.available_cmd ADMIN_ID u2 p_aw)
         = st (Part000.available_cmd ADMIN_ID u2 s)
      /\ st (Part000.away_cmd ADMIN_ID u2 p_aw)
         = st (Part000.away_cmd ADMIN_ID u2 s)
      /\ fst (Part000.consume_pending_notice
                (bot_data (st (Part000.away_cmd ADMIN_ID u2 p_av))))
         = Some Part000.BUSY_NOTICE).
Proof.
  intros Hu m_av m_aw p_av p_aw.
  subst m_av m_aw p_av p_aw.
  unfold Main.available_cmd, Main.away_cmd, Part000.available_cmd,
    Part000.away_cmd.
  repeat case_decide; try contradiction; repeat split; reflexivity.
Qed.

(** The admin (user 1) sends [/available], then [/away]. *)
Lemma later_setter_wins_witness :
  st (Main.away_cmd 1 (command_update 1 "away")
        (st (Main.available_cmd 1 (command_update 1 "available")
               initial_state)))
  = st (Main.away_cmd 1 (command_update 1 "away") initial_state).
Proof.
  exact (proj1 (proj1
    (later_setter_wins 1 (command_update 1 "available")
       (command_update 1 "away") initial_state eq_refl))).
Defined.

(** ** A failed forward *)

Lemma main_forward_failure ADMIN_ID lower u e s fwd :
  let ok := Main.handle_message ADMIN_ID lower u
              (with_forward_result e (Some fwd)) s in
  let ko := Main.handle_message ADMIN_ID lower u
              (with_forward_result e None) s in
  ~ (now e - default 0%Q
               (last_time (context_user_data s (effective_user_id u)))
     < 3 # 2)%Q ->
  out ok
  = forward_message ADMIN_ID (effective_chat_id u) (message_id u) :: out ko
  /\ raised ok = raised ko
  /\ user_data (st ok) = user_data (st ko)
  /\ admin_available (bot_data (st ok)) = admin_available (bot_data (st ko))
  /\ admin_status_changed (bot_data (st ok))
     = admin_status_changed (bot_data (st ko))
  /\ forwarded_map (bot_data (st ko)) = forwarded_map (bot_data s).
Proof.
  intros ok ko Hgate. subst ok ko. unfold Main.handle_message.
  cbn [now with_forward_result].
  rewrite (main_user_spam_passed _ _ Hgate).
  unfold Main.silent_forward, Main.consume_pending_notice, Main.type_animation.
  cbn [forward_result typing_ok with_forward_result admin_status_changed
       record_forward].
  change (Main.safe_ask_gemini lower (with_forward_result e (Some fwd)))
    with (Main.safe_ask_gemini lower e).
  change (Main.safe_ask_gemini lower (with_forward_result e None))
    with (Main.safe_ask_gemini lower e).
  repeat case_decide; try done;
    destruct (Main.safe_ask_gemini lower e _); done.
Qed.

Lemma part_forward_failure ADMIN_ID lower u e s fwd :
  let ok := Part000.handle_message ADMIN_ID lower u
              (with_forward_result e (Some fwd)) s in
  let ko := Part000.handle_message ADMIN_ID lower u
              (with_forward_result e None) s in
  ~ (now e - default 0%Q
               (last_time (context_user_data s (effective_user_id u)))
     < 6 # 5)%Q ->
  lower (take 500 (message_text u)) ∉ Part000.greetings ->
  out ok
  = forward_message ADMIN_ID (effective_chat_id u) (message_id u) :: out ko
  /\ raised ok = raised ko
  /\ user_data (st ok) = user_data (st ko)
  /\ admin_available (bot_data (st ok)) = admin_available (bot_data (st ko))
  /\ admin_status_changed (bot_data (st ok))
     = admin_status_changed (bot_data (st ko))
  /\ forwarded_map (bot_data (st ko)) = forwarded_map (bot_data s).
Proof.
  intros ok ko Hgate Hg. subst ok ko. unfold Part000.handle_message.
  cbn [now with_forward_result].
  rewrite (part_user_spam_passed _ _ Hgate).
  case_decide; [contradiction|].
  unfold Part000.silent_forward, Part000.consume_pending_notice,
    Part000.type_animation.
  cbn [forward_result typing_ok with_forward_result admin_status_changed
       record_forward].
  repeat case_decide; try done;
    repeat case_match; simplify_eq/=; first [done | congruence].
Qed.

(** X8. In both scripts, for a text that passes the cooldown gate (and is
    no greeting in [part_000]), a forward that fails changes nothing the
    user can see: compared with the same call where the forward succeeds,
    the handler sends the same messages minus the forward itself, raises
    the same way, and leaves the same user data, availability and pending
    notice; the correlation map is left as it was, so the admin never sees
    the message and cannot answer it. *)
Theorem forward_failure_is_silent
  (ADMIN_ID : Z) (lower : pystr -> pystr) (u : update) (e : env) (s : state)
  (fwd : Z) :
  let last :=
    default 0%Q (last_time (context_user_data s (effective_user_id u))) in
  let e_ok := with_forward_result e (Some fwd) in
  let e_ko := with_forward_result e None in
  let sent := forward_message ADMIN_ID (effective_chat_id u) (message_id u) in
  (~ (now e - last < 3 # 2)%Q ->
   let ok := Main.handle_message ADMIN_ID lower u e_ok s in
   let ko := Main.handle_message ADMIN_ID lower u e_ko s in
   out ok = sent :: out ko
   /\ raised ok = raised ko
   /\ user_data (st ok) = user_data (st ko)
   /\ admin_available (bot_data (st ok)) = admin_available (bot_data (st ko))
   /\ admin_status_changed (bot_data (st ok))
      = admin_status_changed (bot_data (st ko))
   /\ forwarded_map (bot_data (st ko)) = forwarded_map (bot_data s))
  /\ (~ (now e - last < 6 # 5)%Q ->
      lower (take 500 (message_text u)) ∉ Part000.greetings ->
      let ok := Part000.handle_message ADMIN_ID lower u e_ok s in
      let ko := Part000.handle_message ADMIN_ID lower u e_ko s in
      out ok = sent :: out ko
      /\ raised ok = raised ko
      /\ user_data (st ok) = user_data (st ko)
      /\ admin_available (bot_data (st ok))
         = admin_available (bot_data (st ko))
      /\ admin_status_changed (bot_data (st ok))
         = admin_status_changed (bot_data (st ko))
      /\ forwarded_map (bot_data (st ko)) = forwarded_map (bot_data s)).
Proof.
  intros last e_ok e_ko sent. split.
  - intros Hgate. by apply main_forward_failure.
  - intros Hgate Hg. by apply part_forward_failure.
Qed.

(** User 5 writes while the transport cannot forward. *)
Lemma forward_failure_is_silent_witness :
  out (Main.handle_message 1 ascii_lower (text_update 5 (lit "Need help"))
         (with_forward_result (sample_env 1000) (Some 900)) initial_state)
  = forward_message 1 5 40
    :: out (Main.handle_message 1 ascii_lower (text_update 5 (lit "Need help"))
              (with_forward_result (sample_env 1000) None) initial_state).
Proof.
  refine (proj1 (proj1
    (forward_failure_is_silent 1 ascii_lower (text_update 5 (lit "Need help"))
       (sample_env 1000) initial_state 900) _)).
  intros H; vm_compute in H; discriminate H.
Defined.

(** ** What the reply depends on *)

(** X9. In [main.py] the messages sent for a text, and whether the
    handler raises, depend on the stores only through the pending status
    notice and the sender's time stamp: two states that agree on these give
    the same output, whatever their availability flags, [busy_shown] values
    and correlation maps. Neither the prompt nor the reply takes the
    admin's availability or the first contact into account. *)
Theorem main_reply_ignores_availability
  (ADMIN_ID : Z) (lower : pystr -> pystr) (u : update) (e : env)
  (s1 s2 : state) :
  admin_status_changed (bot_data s1) = admin_status_changed (bot_data s2) ->
  last_time (context_user_data s1 (effective_user_id u))
  = last_time (context_user_data s2 (effective_user_id u)) ->
  out (Main.handle_message ADMIN_ID lower u e s1)
  = out (Main.handle_message ADMIN_ID lower u e s2)
  /\ raised (Main.handle_message ADMIN_ID lower u e s1)
     = raised (Main.handle_message ADMIN_ID lower u e s2).
Proof.
  intros Hc Ht. unfold Main.handle_message, Main.user_spam. rewrite Ht.
  destruct (Qltb _ _); [done|].
  unfold Main.silent_forward, Main.consume_pending_notice.
  destruct (forward_result e); cbn [admin_status_changed record_forward];
    rewrite Hc; repeat case_decide; try done;
    destruct (Main.safe_ask_gemini lower e _); done.
Qed.

(** The same text at the same time, admin away and user new, or admin
    available and user known. *)
Lemma main_reply_ignores_availability_witness :
  out (Main.handle_message 1 ascii_lower (text_update 5 (lit "Need help"))
         (sample_env 1000) initial_state)
  = out (Main.handle_message 1 ascii_lower (text_update 5 (lit "Need help"))
           (sample_env 1000)
           {| bot_data := {| admin_available := Some true;
                             admin_status_changed := None;
                             forwarded_map := None |};
              user_data := {[ 5 := {| last_time := None;
                                      busy_shown := Some true |} ]} |}).
Proof.
  refine (proj1 (main_reply_ignores_availability 1 ascii_lower
    (text_update 5 (lit "Need help")) (sample_env 1000) initial_state
    {| bot_data := {| admin_available := Some true;
                      admin_status_changed := None;
                      forwarded_map := None |};
       user_data := {[ 5 := {| last_time := None;
                               busy_shown := Some true |} ]} |}
    _ _)); reflexivity.
Defined.

Lemma part_general_branch ADMIN_ID lower u e s :
  let uid := effective_user_id u in
  let ud := context_user_data s uid in
  ~ (now e - default 0%Q (last_time ud) < 6 # 5)%Q ->
  lower (take 500 (message_text u)) ∉ Part000.greetings ->
  admin_status_changed (bot_data s) = None ->
  Part000.handle_message ADMIN_ID lower u e s
  = {| st :=
         {| bot_data := fst (Part000.silent_forward ADMIN_ID u e (bot_data s));
            user_data :=
              <[uid := {| last_time := Some (now e); busy_shown := Some true |}]>
                (user_data s) |};
       out :=
         forward_of ADMIN_ID u e ++ Part000.type_animation u e
         ++ [reply_text (effective_chat_id u)
               (if default false (admin_available (bot_data s))
                then lit "Message sent ✅"
                else if default false (busy_shown ud)
                     then lit "Message sent ✅"
                     else Part000.BUSY_NOTICE)];
       raised := None |}.
Proof.
  intros uid ud Hgate Hg Hc. unfold Part000.handle_message.
  fold uid. fold ud. rewrite (part_user_spam_passed _ _ Hgate).
  case_decide; [contradiction|].
  unfold Part000.silent_forward, forward_of.
  destruct (forward_result e) as [fwd|];
    (rewrite part_consume_none; [|exact Hc]);
    cbn [admin_available record_forward busy_shown set_last_time];
    destruct (default false (admin_available (bot_data s)));
    destruct (default false (busy_shown ud)); reflexivity.
Qed.

(** X10. In [part_000], for a text that is no command, no reply and no
    greeting, passes the gate and finds no notice pending: after the
    forward (if it succeeded) and the filler (if it could be sent) the
    handler's last call is one answer, the busy message exactly when the
    admin is not available and the user's [busy_shown] is not yet set,
    "Message sent" otherwise; in all three cases [busy_shown] is set
    before that call, also when the admin was available and the busy
    message was not shown. *)
Theorem part_general_reply
  (ADMIN_ID : Z) (lower : pystr -> pystr) (u : update) (e : env) (s : state) :
  is_plain_text u ->
  ~ (now e - default 0%Q
               (last_time (context_user_data s (effective_user_id u)))
     < 6 # 5)%Q ->
  lower (take 500 (message_text u)) ∉ Part000.greetings ->
  admin_status_changed (bot_data s) = None ->
  let r := Part000.dispatch ADMIN_ID lower u e s in
  let answer text :=
    out r = forward_of ADMIN_ID u e ++ Part000.type_animation u e
            ++ [reply_text (effective_chat_id u) text] in
  (default false (admin_available (bot_data s)) = false ->
   has_busy_shown s (effective_user_id u) = false ->
   answer Part000.BUSY_NOTICE)
  /\ (default false (admin_available (bot_data s)) = true
      \/ has_busy_shown s (effective_user_id u) = true ->
      answer (lit "Message sent ✅"))
  /\ has_busy_shown (st r) (effective_user_id u) = true.
Proof.
  intros [Hr [t Hm]] Hgate Hg Hc r answer. subst r answer.
  rewrite (part_dispatch_plain _ _ _ _ _ _ Hm Hr).
  rewrite (part_general_branch _ _ _ _ _ Hgate Hg Hc).
  unfold has_busy_shown. cbn [out st].
  rewrite context_user_data_insert. cbn [busy_shown default].
  split; [|split; [|done]].
  - intros -> ->. reflexivity.
  - intros [-> | ->]; [reflexivity|].
    by destruct (default false (admin_available (bot_data s))).
Qed.

(** User 5's first text while the admin is away and nothing is pending. *)
Lemma part_general_reply_witness :
  out (Part000.dispatch 1 ascii_lower (text_update 5 (lit "Need help"))
         (sample_env 1000) initial_state)
  = forward_of 1 (text_update 5 (lit "Need help")) (sample_env 1000)
    ++ Part000.type_animation (text_update 5 (lit "Need help"))
         (sample_env 1000)
    ++ [reply_text 5 Part000.BUSY_NOTICE].
Proof.
  refine (proj1 (part_general_reply 1 ascii_lower
    (text_update 5 (lit "Need help")) (sample_env 1000) initial_state
    _ _ _ eq_refl) eq_refl eq_refl).
  - split; [reflexivity | by eexists].
  - intros H; vm_compute in H; discriminate H.
  - apply (bool_decide_eq_false_1 _). vm_compute. reflexivity.
Defined.

Lemma part_away_branch ADMIN_ID lower u e s :
  let uid := effective_user_id u in
  let ud := context_user_data s uid in
  ~ (now e - default 0%Q (last_time ud) < 6 # 5)%Q ->
  lower (take 500 (message_text u)) ∉ Part000.greetings ->
  admin_status_changed (bot_data s) = Some "away" ->
  Part000.handle_message ADMIN_ID lower u e s
  = {| st :=
         {| bot_data :=
              clear_status_changed
                (fst (Part000.silent_forward ADMIN_ID u e (bot_data s)));
            user_data := <[uid := set_last_time ud (now e)]> (user_data s) |};
       out :=
         forward_of ADMIN_ID u e ++ Part000.type_animation u e
         ++ [reply_text (effective_chat_id u) Part000.BUSY_NOTICE];
       raised := None |}.
Proof.
  intros uid ud Hgate Hg Hc. unfold Part000.handle_message.
  fold uid. fold ud. rewrite (part_user_spam_passed _ _ Hgate).
  case_decide; [contradiction|].
  unfold Part000.silent_forward, forward_of, Part000.consume_pending_notice.
  destruct (forward_result e) as [fwd|];
    cbn [admin_status_changed record_forward fst]; rewrite Hc; reflexivity.
Qed.

(** X11. In [part_000], when the away notice is pending and the admin is
    away, a user with nothing stored who sends two texts (no commands, no
    replies, no greetings), the first past the gate and the second at
    least 1.2 s later, is answered with the busy wording twice: the first
    time as the status notice, which leaves [busy_shown] unset, the second
    time as the first-time busy message, which sets it. *)
Theorem away_notice_then_busy_again
  (ADMIN_ID : Z) (lower : pystr -> pystr) (u1 u2 : update) (e1 e2 : env)
  (s : state) :
  admin_status_changed (bot_data s) = Some "away" ->
  default false (admin_available (bot_data s)) = false ->
  user_data s !! effective_user_id u1 = None ->
  effective_user_id u2 = effective_user_id u1 ->
  is_plain_text u1 -> is_plain_text u2 ->
  lower (take 500 (message_text u1)) ∉ Part000.greetings ->
  lower (take 500 (message_text u2)) ∉ Part000.greetings ->
  (6 # 5 <= now e1)%Q ->
  (6 # 5 <= now e2 - now e1)%Q ->
  let r1 := Part000.dispatch ADMIN_ID lower u1 e1 s in
  let r2 := Part000.dispatch ADMIN_ID lower u2 e2 (st r1) in
  out r1 = forward_of ADMIN_ID u1 e1 ++ Part000.type_animation u1 e1
           ++ [reply_text (effective_chat_id u1) Part000.BUSY_NOTICE]
  /\ has_busy_shown (st r1) (effective_user_id u1) = false
  /\ out r2 = forward_of ADMIN_ID u2 e2 ++ Part000.type_animation u2 e2
              ++ [reply_text (effective_chat_id u2) Part000.BUSY_NOTICE]
  /\ has_busy_shown (st r2) (effective_user_id u1) = true.
Proof.
  intros Hc Ha Hfresh Hu [Hr1 [t1 Hm1]] [Hr2 [t2 Hm2]] Hg1 Hg2 Hn1 Hn2 r1 r2.
  subst r1 r2.
  rewrite (part_dispatch_plain _ _ _ _ _ _ Hm1 Hr1).
  assert (Hgate1 : ~ (now e1 - default 0%Q (last_time
    (context_user_data s (effective_user_id u1))) < 6 # 5)%Q).
  { rewrite (context_user_data_fresh _ _ Hfresh). simpl. intros H. lra. }
  rewrite (part_away_branch _ _ _ _ _ Hgate1 Hg1 Hc).
  rewrite (context_user_data_fresh _ _ Hfresh).
  cbn [out st].
  split; [reflexivity|]. split.
  { unfold has_busy_shown. by rewrite context_user_data_insert. }
  rewrite (part_dispatch_plain _ _ _ _ _ _ Hm2 Hr2).
  set (s1 := {| bot_data := _; user_data := _ |}).
  assert (Hud : context_user_data s1 (effective_user_id u2)
                = set_last_time no_user_data (now e1)).
  { rewrite Hu. apply context_user_data_insert. }
  assert (Hgate2 : ~ (now e2 - default 0%Q (last_time
    (context_user_data s1 (effective_user_id u2))) < 6 # 5)%Q).
  { rewrite Hud. simpl. intros H. lra. }
  assert (Hc1 : admin_status_changed (bot_data s1) = None) by reflexivity.
  assert (Ha1 : default false (admin_available (bot_data s1)) = false).
  { unfold s1, Part000.silent_forward. cbn [bot_data].
    by destruct (forward_result e1). }
  rewrite (part_general_branch _ _ _ _ _ Hgate2 Hg2 Hc1).
  rewrite Ha1, Hud. cbn [out st busy_shown set_last_time no_user_data default].
  split; [reflexivity|].
  unfold has_busy_shown. rewrite <- Hu. by rewrite context_user_data_insert.
Qed.

(** The admin (user 1) is away with the notice pending; user 5 writes at
    1000 s and at 1002 s. *)
Lemma away_notice_then_busy_again_witness :
  out (Part000.dispatch 1 ascii_lower (text_update 5 (lit "Anyone?"))
         (sample_env 1002)
         (st (Part000.dispatch 1 ascii_lower (text_update 5 (lit "Need help"))
                (sample_env 1000)
                (st (Part000.away_cmd 1 (command_update 1 "away")
                       initial_state)))))
  = forward_of 1 (text_update 5 (lit "Anyone?")) (sample_env 1002)
    ++ Part000.type_animation (text_update 5 (lit "Anyone?")) (sample_env 1002)
    ++ [reply_text 5 Part000.BUSY_NOTICE].
Proof.
  refine (proj1 (proj2 (proj2
    (away_notice_then_busy_again 1 ascii_lower
       (text_update 5 (lit "Need help")) (text_update 5 (lit "Anyone?"))
       (sample_env 1000) (sample_env 1002)
       (st (Part000.away_cmd 1 (command_update 1 "away") initial_state))
       _ _ _ _ _ _ _ _ _ _)))); try reflexivity.
  - split; [reflexivity | by eexists].
  - split; [reflexivity | by eexists].
  - apply (bool_decide_eq_false_1 _). vm_compute. reflexivity.
  - apply (bool_decide_eq_false_1 _). vm_compute. reflexivity.
  - intros H; vm_compute in H; discriminate H.
  - intros H; vm_compute in H; discriminate H.
Defined.

(** ** The length bound *)

(** X12. In both scripts [handle_message] reads the text through its
    first 500 code points only: two texts that agree on them get the same
    reply, language, greeting test and prompt, and leave the same stores,
    whatever follows. (The forward and the relay of an admin reply are not
    cut.) *)
Theorem only_first_500_code_points
  (ADMIN_ID : Z) (lower : pystr -> pystr) (u : update) (e : env) (s : state)
  (t1 t2 : pystr) :
  take 500 t1 = take 500 t2 ->
  Main.handle_message ADMIN_ID lower (with_text u t1) e s
  = Main.handle_message ADMIN_ID lower (with_text u t2) e s
  /\ Part000.handle_message ADMIN_ID lower (with_text u t1) e s
     = Part000.handle_message ADMIN_ID lower (with_text u t2) e s.
Proof.
  intros H.
  unfold Main.handle_message, Part000.handle_message, Main.silent_forward,
    Part000.silent_forward, Main.type_animation, Part000.type_animation,
    message_text.
  cbn [with_text effective_user_id effective_chat_id message_id message
       first_name].
  rewrite H. split; reflexivity.
Qed.

(** Two texts of 501 code points that differ in the last one. *)
Lemma only_first_500_code_points_witness :
  Part000.handle_message 1 ascii_lower
    (with_text (text_update 5 []) (replicate 500 97%N ++ [2453%N]))
    (sample_env 1000) initial_state
  = Part000.handle_message 1 ascii_lower
      (with_text (text_update 5 []) (replicate 500 97%N ++ [98%N]))
      (sample_env 1000) initial_state.
Proof.
  refine (proj2 (only_first_500_code_points 1 ascii_lower (text_update 5 [])
    (sample_env 1000) initial_state (replicate 500 97%N ++ [2453%N])
    (replicate 500 97%N ++ [98%N]) _)).
  vm_compute. reflexivity.
Defined.

(** ** A blank answer of the service *)

Lemma lstrip_blank s :
  Forall (fun c => py_isspace c = true) s -> lstrip s = [].
Proof.
  induction 1 as [|c s Hc _ IH]; [reflexivity|]. simpl. by rewrite Hc.
Qed.

Lemma strip_blank s :
  Forall (fun c => py_isspace c = true) s -> strip s = [].
Proof. intros H. unfold strip. by rewrite (lstrip_blank _ H). Qed.

(** X13. In both scripts a response whose text is not empty but consists
    of white space only is taken as a success and stripped: the
    synthesized reply is the empty string, not the fallback, and the
    welcome of [part_000] built from it is empty too. *)
Theorem blank_text_gives_empty_reply
  (lower : pystr -> pystr) (e : env) (p : prompt) (resp : response)
  (c : N) (t : pystr) (name : pystr) (lang : string) :
  generate e p = Returns resp ->
  resp_text resp = Some (c :: t) ->
  Forall (fun x => py_isspace x = true) (c :: t) ->
  Main.safe_ask_gemini lower e p = inl []
  /\ Part000.safe_ask_gemini e p = []
  /\ (p = WelcomePrompt name lang -> Part000.smart_welcome e name lang = []).
Proof.
  intros Hg Ht Hb.
  destruct (ask_text lower e p resp c t Hg Ht) as [Hm Hp].
  rewrite Hm, Hp, (strip_blank _ Hb). repeat split.
  intros ->. unfold Part000.smart_welcome. by rewrite Hp, (strip_blank _ Hb).
Qed.

(** The service answers with a blank and a line feed. *)
Lemma blank_text_gives_empty_reply_witness :
  Part000.safe_ask_gemini
    {| now := 1000; forward_result := None; typing_ok := true;
       generate := fun _ => Returns {| resp_text := Some [32; 10]%N;
                                       resp_candidates := [];
                                       resp_str := [] |};
       rnd := 0;
       forward_error := {| exn_is_Exception := true; exn_str := [] |};
       send_result := None |}
    (WelcomePrompt (lit "Friend") "english")
  = [].
Proof.
  refine (proj1 (proj2 (blank_text_gives_empty_reply ascii_lower
    {| now := 1000; forward_result := None; typing_ok := true;
       generate := fun _ => Returns {| resp_text := Some [32; 10]%N;
                                       resp_candidates := [];
                                       resp_str := [] |};
       rnd := 0;
       forward_error := {| exn_is_Exception := true; exn_str := [] |};
       send_result := None |}
    (WelcomePrompt (lit "Friend") "english") _ 32%N [10%N] [] "english"
    eq_refl eq_refl _))).
  repeat constructor.
Defined.

(** ** Updates that change nothing *)

(** X14. In both scripts the stores change only for a setter command of
    the admin, for a text that is no command and no reply, and, in
    [part_000], for a photo. Every other update ([/start], a setter
    command of another user, any reply, a command that is not registered,
    a photo in [main.py]) leaves the correlation map, the admin state and
    all user data exactly as they were. *)
Theorem stores_change_only_for
  (ADMIN_ID : Z) (lower : pystr -> pystr) (u : update) (e : env) (s : state) :
  ~ is_setter ADMIN_ID u ->
  ~ is_plain_text u ->
  st (Main.dispatch ADMIN_ID lower u e s) = s
  /\ (message u <> Photo -> st (Part000.dispatch ADMIN_ID lower u e s) = s).
Proof.
  intros Hns Hnp.
  assert (Hreply : forall t, message u = Text t None ->
                             is_Some (reply_to_message u)).
  { intros t Hm. destruct (reply_to_message u) eqn:Hr; [eauto|].
    exfalso. apply Hnp. split; [done | by eexists]. }
  unfold Main.dispatch, Part000.dispatch, Main.start_cmd, Part000.start_cmd,
    Main.available_cmd, Main.away_cmd, Part000.available_cmd,
    Part000.away_cmd, Main.admin_reply_handler, Part000.admin_reply_handler,
    done_with.
  destruct (message u) as [t cmd|] eqn:Hm; [|split; [done|congruence]].
  split; [|intros _];
    repeat first [case_decide | case_match]; simplify_eq/=; try done;
    first [ exfalso; apply Hns; split; [lia | eauto]
          | exfalso; eauto ].
Qed.

(** User 5 sends [/unknown], which no handler is registered for. *)
Lemma stores_change_only_for_witness :
  st (Main.dispatch 1 ascii_lower (command_update 5 "unknown")
        (sample_env 1000) initial_state)
  = initial_state.
Proof.
  refine (proj1 (stores_change_only_for 1 ascii_lower
    (command_update 5 "unknown") (sample_env 1000) initial_state _ _)).
  - intros [H _]. simpl in H. lia.
  - intros [_ [t H]]. simpl in H. discriminate H.
Defined.

(** User 5's first text, at 1000 s. *)
Lemma accepted_texts_are_spaced_witness :
  last_time
    (context_user_data
       (st (Main.dispatch 1 ascii_lower (text_update 5 (lit "Need help"))
              (sample_env 1000) initial_state)) 5)
  <> last_time (context_user_data initial_state 5)
  /\ (3 # 2 <= 1000 - 0)%Q.
Proof.
  assert (H : last_time
    (context_user_data
       (st (Main.dispatch 1 ascii_lower (text_update 5 (lit "Need help"))
              (sample_env 1000) initial_state)) 5)
    <> last_time (context_user_data initial_state 5))
    by (intros H; vm_compute in H; discriminate H).
  split; [exact H|].
  exact (proj1 (proj2 (proj2 (proj1
    (accepted_texts_are_spaced 1 ascii_lower (text_update 5 (lit "Need help"))
       (sample_env 1000) initial_state 5) H)))).
Defined.

(** Message 900 was forwarded for user 5; user 6 then writes. *)
Lemma correlation_entries_persist_witness :
  resolve
    (bot_data
       (run (Main.dispatch 1 ascii_lower)
          (set_bot_data initial_state
             (record_forward (bot_data initial_state) 900 5))
          [(text_update 6 (lit "hello"),
            with_forward_result (sample_env 1050) (Some 901))])) 900
  = Some 5.
Proof.
  refine (proj1 (proj2
    (correlation_entries_persist 1 ascii_lower
       (set_bot_data initial_state
          (record_forward (bot_data initial_state) 900 5)) 900 5
       [(text_update 6 (lit "hello"),
         with_forward_result (sample_env 1050) (Some 901))] eq_refl) _)).
  repeat constructor. simpl. discriminate.
Defined.

(** ** Photos *)

(** X15. In [part_000] a photo does not go through the cooldown gate:
    whatever the clock says, [photo_handler] leaves all user data, the
    availability and a pending status notice as they were. When the
    forward succeeds it records the identifier and then acknowledges with
    "Message sent"; when the forward raises an exception derived from
    [Exception] it still acknowledges, and changes nothing at all; when the
    forward raises anything else, that exception leaves the handler,
    nothing is sent and nothing changes. In [main.py] a photo matches no
    handler: no call is made and nothing changes. *)
Theorem photo_is_acknowledged
  (ADMIN_ID : Z) (lower : pystr -> pystr) (u : update) (e : env) (s : state) :
  message u = Photo ->
  let r := Part000.dispatch ADMIN_ID lower u e s in
  (user_data (st r) = user_data s
   /\ admin_available (bot_data (st r)) = admin_available (bot_data s)
   /\ admin_status_changed (bot_data (st r))
      = admin_status_changed (bot_data s)
   /\ (forall fwd, forward_result e = Some fwd ->
       out r = [forward_message ADMIN_ID (effective_chat_id u) (message_id u);
                reply_text (effective_chat_id u) (lit "Message sent ✅")]
       /\ resolve (bot_data (st r)) fwd = Some (effective_chat_id u))
   /\ (forward_result e = None -> exn_is_Exception (forward_error e) = true ->
       out r = [reply_text (effective_chat_id u) (lit "Message sent ✅")]
       /\ st r = s)
   /\ (forward_result e = None -> exn_is_Exception (forward_error e) = false ->
       out r = [] /\ st r = s /\ raised r = Some (forward_error e)))
  /\ (out (Main.dispatch ADMIN_ID lower u e s) = []
      /\ st (Main.dispatch ADMIN_ID lower u e s) = s).
Proof.
  intros Hm r. subst r.
  unfold Part000.dispatch, Main.dispatch, Part000.photo_handler.
  rewrite Hm.
  split; [|by split].
  destruct (forward_result e) as [fwd|];
    [|destruct (exn_is_Exception (forward_error e))];
    (split; [reflexivity|]); (split; [reflexivity|]);
    (split; [reflexivity|]); (split; [|split]);
    try (intros; discriminate); try (intros; by repeat split).
  intros fwd' [= <-]. split; [reflexivity|].
  unfold resolve; simpl. apply lookup_insert_eq.
Qed.

(** User 5 sends a photo half a second after a text, with a notice
    pending, while the transport refuses the forward. *)
Lemma photo_is_acknowledged_witness :
  out (Part000.dispatch 1 ascii_lower
         {| effective_user_id := 5; first_name := None;
            effective_chat_id := 5; message_id := 43; message := Photo;
            reply_to_message := None |}
         (with_forward_result (sample_env (2001 # 2)) None)
         (st (Part000.away_cmd 1 (command_update 1 "away")
                (st (Part000.dispatch 1 ascii_lower
                       (text_update 5 (lit "Need help")) (sample_env 1000)
                       initial_state)))))
  = [reply_text 5 (lit "Message sent ✅")].
Proof.
  exact (proj1 (proj1 (proj2 (proj2 (proj2 (proj2 (proj1
    (photo_is_acknowledged 1 ascii_lower
       {| effective_user_id := 5; first_name := None;
          effective_chat_id := 5; message_id := 43; message := Photo;
          reply_to_message := None |}
       (with_forward_result (sample_env (2001 # 2)) None)
       (st (Part000.away_cmd 1 (command_update 1 "away")
              (st (Part000.dispatch 1 ascii_lower
                     (text_update 5 (lit "Need help")) (sample_env 1000)
                     initial_state))))
       eq_refl)))))) eq_refl eq_refl)).
Defined.
